(** * Game of Life on WebGPU: the host program [src/index.ts]

    A shallow embedding of the host side of the application: the module
    level code, [init], the timer callback [updateGrid] and the [resize]
    handler, followed by the properties of the natural-language
    specification that concern them.

    Conventions.
    - Browser and GPU calls are recorded, in order, in the [calls] log of a
      [World]; the program is written in a state-and-exception monad [M]
      over that world.
    - Numbers that only flow through arithmetic ([resize], the vertex and
      uniform data) are IEEE binary64 values, Rocq's primitive [float]; an
      element of a [Float32Array] is the binary32 value it holds.
    - The generation counter [step] only ever holds integers; it is a [Z]
      with the behaviour of [++] on a binary64 written out ([js_incr]).
    - A draw of [Math.random] is a rational in [0,1); the literal [0.4] is
      the rational value of the binary64 nearest to it.
    - The two shader sources and [WORKGROUP_SIZE] are imported from files
      that are not part of [index.ts]; they are parameters. *)

From Stdlib Require Import ZArith QArith Qround Lia ZifyNat PrimFloat Uint63.
From stdpp Require Import base gmap strings list.

Local Open Scope string_scope.
Local Open Scope Z_scope.

(* Decimal literals such as 0.8 denote the nearest binary64, as in JavaScript. *)
Set Warnings "-inexact-float".

(** ** JavaScript numbers *)

Module JS.

Definition is_nan (x : float) : bool := negb (PrimFloat.eqb x x).

Definition is_zero (x : float) : bool := PrimFloat.eqb x 0%float.

(** [-0] is the zero whose reciprocal is negative. *)
Definition is_neg_zero (x : float) : bool :=
  is_zero x && PrimFloat.ltb (PrimFloat.div 1%float x) 0%float.

(** [x || d] on numbers: [0], [-0] and [NaN] are falsy. *)
Definition or_else (x d : float) : float :=
  if is_zero x || is_nan x then d else x.

Definition Math_max (a b : float) : float :=
  if is_nan a || is_nan b then nan
  else if PrimFloat.ltb a b then b
  else if PrimFloat.ltb b a then a
  else if is_neg_zero a then b else a.

Definition Math_min (a b : float) : float :=
  if is_nan a || is_nan b then nan
  else if PrimFloat.ltb a b then a
  else if PrimFloat.ltb b a then b
  else if is_neg_zero a then a else b.

Definition two52 : float := 4503599627370496%float.

(** [Math.floor]. Below [2^52] in magnitude, adding and subtracting [2^52]
    rounds to the nearest integer, which is then adjusted downwards; from
    [2^52] on (and for infinities and [NaN]) the argument is returned. *)
Definition Math_floor (x : float) : float :=
  let a := PrimFloat.abs x in
  if PrimFloat.ltb a two52 then
    let t := PrimFloat.sub (PrimFloat.add a two52) two52 in
    if PrimFloat.ltb x 0%float
    then PrimFloat.opp (if PrimFloat.ltb t a then PrimFloat.add t 1%float else t)
    else if is_neg_zero x then x
    else if PrimFloat.ltb a t then PrimFloat.sub t 1%float else t
  else x.

(** The largest integer up to which every integer is a binary64. *)
Definition MAX_EXACT : Z := 2 ^ 53.

(** [n++] for a counter [n] that starts at [0]: exact below [2^53]; at
    [2^53] the sum [2^53 + 1] lies halfway between two binary64 values
    and rounds to the even one, [2^53] itself. *)
Definition js_incr (n : Z) : Z := if n <? MAX_EXACT then n + 1 else n.

(** The binary64 nearest to the literal [0.4], as a rational. *)
Definition lit_0_4 : Q := 3602879701896397 # 9007199254740992.

(** [a > b] on rationals. *)
Definition Qgtb (a b : Q) : bool := negb (Qle_bool a b).

(** [Math.ceil (a / b)] for integers [a] and [b > 0]. *)
Definition ceil_div (a : Z) (b : positive) : Z := Qceiling (a # b).

End JS.

(** ** Typed arrays *)

Inductive TypedArray :=
| Float32Array (elems : list float)
| Uint32Array (elems : list Z).

Definition ta_length (a : TypedArray) : Z :=
  match a with
  | Float32Array l => Z.of_nat (length l)
  | Uint32Array l => Z.of_nat (length l)
  end.

(** Both element types take four bytes. *)
Definition byteLength (a : TypedArray) : Z := 4 * ta_length a.

(** [new Uint32Array(n)]: [n] zeros. *)
Definition new_Uint32Array (n : Z) : list Z := replicate (Z.to_nat n) 0.

(** ** The WebGPU objects the program creates *)

Module GPUBufferUsage.
Definition COPY_DST : Z := 8.
Definition VERTEX : Z := 32.
Definition UNIFORM : Z := 64.
Definition STORAGE : Z := 128.
End GPUBufferUsage.

Module GPUShaderStage.
Definition VERTEX : Z := 1.
Definition FRAGMENT : Z := 2.
Definition COMPUTE : Z := 4.
End GPUShaderStage.

(** A buffer is identified by [buf_id], its rank among the buffers the
    device has created. *)
Record GPUBuffer := {
  buf_id : nat;
  buf_label : string;
  buf_size : Z;
  buf_usage : Z
}.

Record GPUShaderModule := { sm_label : string; sm_code : string }.

Inductive BufferBindingType := uniform | read_only_storage | storage.

Record LayoutEntry := {
  le_binding : Z;
  le_visibility : Z;
  le_type : BufferBindingType
}.

Record GPUBindGroupLayout := {
  bgl_label : string;
  bgl_entries : list LayoutEntry
}.

Record BindGroupEntry := { binding : Z; resource : GPUBuffer }.

Record GPUBindGroup := {
  bg_label : string;
  bg_layout : GPUBindGroupLayout;
  bg_entries : list BindGroupEntry
}.

Record GPUPipelineLayout := {
  pl_label : string;
  pl_bindGroupLayouts : list GPUBindGroupLayout
}.

Record GPUVertexBufferLayout := {
  arrayStride : Z;
  attr_format : string;
  attr_offset : Z;
  attr_shaderLocation : Z
}.

Record GPURenderPipeline := {
  rp_label : string;
  rp_layout : GPUPipelineLayout;
  rp_vertex_module : GPUShaderModule;
  rp_vertex_entryPoint : string;
  rp_vertex_buffers : list GPUVertexBufferLayout;
  rp_fragment_module : GPUShaderModule;
  rp_fragment_entryPoint : string;
  rp_fragment_targets : list string
}.

Record GPUComputePipeline := {
  cp_label : string;
  cp_layout : GPUPipelineLayout;
  cp_module : GPUShaderModule;
  cp_entryPoint : string
}.

Inductive Pipeline :=
| RenderPipeline (p : GPURenderPipeline)
| ComputePipeline (p : GPUComputePipeline).

(** Commands recorded inside a pass. *)
Inductive PassCommand :=
| setPipeline (p : Pipeline)
| setBindGroup (index : Z) (bg : GPUBindGroup)
| dispatchWorkgroups (x y : Z)
| setVertexBuffer (slot : Z) (b : GPUBuffer)
| draw (vertexCount instanceCount : Z).

Record ColorAttachment := {
  loadOp : string;
  clearValue : list float;
  storeOp : string
}.

(** A pass as it stands in a finished command buffer. *)
Inductive Pass :=
| ComputePass (cmds : list PassCommand)
| RenderPass (colorAttachments : list ColorAttachment) (cmds : list PassCommand).

(** Calls on the browser's GPU interface, as the log records them. *)
Inductive Call :=
| requestAdapter
| requestDevice
| getContext (kind : string)
| getPreferredCanvasFormat
| configure (format : string)
| createBuffer (b : GPUBuffer)
| writeBuffer (b : GPUBuffer) (offset : Z) (data : TypedArray)
| createShaderModule (m : GPUShaderModule)
| createBindGroupLayout (l : GPUBindGroupLayout)
| createBindGroup (g : GPUBindGroup)
| createPipelineLayout (l : GPUPipelineLayout)
| createRenderPipeline (p : GPURenderPipeline)
| createComputePipeline (p : GPUComputePipeline)
| setInterval (ms : Z)
| createCommandEncoder
| getCurrentTexture
| submit (commandBuffer : list Pass).

(** ** The page *)

(** A value assigned to a style property: the string [`${x}px`], or any
    other text the page may hold. The model records the assignment; what
    the browser's style parser then makes of the text (it prints [-0] as
    [0] and drops a text such as [NaNpx]) is outside it. *)
Inductive CssValue :=
| px (x : float)
| css_text (s : string).

(** The canvas element: its drawing-buffer size attributes and its inline
    style, a map from property names to values. *)
Record HTMLCanvasElement := {
  width : Z;
  height : Z;
  style : gmap string CssValue
}.

(** What the browser reports about the window, and what it answers to the
    capability queries of [init]. *)
Record Browser := {
  clientWidth : float;
  clientHeight : float;
  innerWidth : float;
  innerHeight : float;
  navigator_gpu : bool;
  adapter_found : bool;
  context_found : bool;
  preferredCanvasFormat : string;
  Math_random : nat -> Q
}.

(** ** Worlds and the monad of the program *)

Record World := {
  browser : Browser;
  canvas : HTMLCanvasElement;
  listeners : list string;
  calls : list Call;
  uploaded : gmap nat TypedArray;
  created : nat;
  drawn : nat;
  step : Z
}.

Definition with_canvas (c : HTMLCanvasElement) (w : World) : World :=
  {| browser := browser w; canvas := c; listeners := listeners w;
     calls := calls w; uploaded := uploaded w; created := created w;
     drawn := drawn w; step := step w |}.

Definition with_listener (e : string) (w : World) : World :=
  {| browser := browser w; canvas := canvas w; listeners := listeners w ++ [e];
     calls := calls w; uploaded := uploaded w; created := created w;
     drawn := drawn w; step := step w |}.

Definition with_call (c : Call) (w : World) : World :=
  {| browser := browser w; canvas := canvas w; listeners := listeners w;
     calls := calls w ++ [c]; uploaded := uploaded w; created := created w;
     drawn := drawn w; step := step w |}.

Definition with_upload (id : nat) (d : TypedArray) (w : World) : World :=
  {| browser := browser w; canvas := canvas w; listeners := listeners w;
     calls := calls w; uploaded := <[id := d]> (uploaded w); created := created w;
     drawn := drawn w; step := step w |}.

Definition with_created (n : nat) (w : World) : World :=
  {| browser := browser w; canvas := canvas w; listeners := listeners w;
     calls := calls w; uploaded := uploaded w; created := n;
     drawn := drawn w; step := step w |}.

Definition with_drawn (n : nat) (w : World) : World :=
  {| browser := browser w; canvas := canvas w; listeners := listeners w;
     calls := calls w; uploaded := uploaded w; created := created w;
     drawn := n; step := step w |}.

Definition with_step (n : Z) (w : World) : World :=
  {| browser := browser w; canvas := canvas w; listeners := listeners w;
     calls := calls w; uploaded := uploaded w; created := created w;
     drawn := drawn w; step := n |}.

(** How a computation ends: with a value, with a thrown [Error], or
    because the model's loop bound ran out. *)
Inductive Outcome (A : Type) :=
| Return (a : A)
| Throw (message : string)
| OutOfFuel.

Arguments Return {A} a.
Arguments Throw {A} message.
Arguments OutOfFuel {A}.

Definition M (A : Type) : Type := World -> Outcome A * World.

Definition ret {A} (a : A) : M A := fun w => (Return a, w).

Definition throw {A} (message : string) : M A := fun w => (Throw message, w).

Definition bind {A B} (m : M A) (k : A -> M B) : M B :=
  fun w =>
    match m w with
    | (Return a, w') => k a w'
    | (Throw e, w') => (Throw e, w')
    | (OutOfFuel, w') => (OutOfFuel, w')
    end.

Declare Scope prog_scope.
Delimit Scope prog_scope with prog.
Notation "x <- m ;; k" := (bind m (fun x => k))
  (at level 100, m at next level, right associativity) : prog_scope.
Notation "m ;; k" := (bind m (fun _ => k))
  (at level 100, right associativity) : prog_scope.

Definition get {A} (f : World -> A) : M A := fun w => (Return (f w), w).

Definition modify (f : World -> World) : M unit := fun w => (Return tt, f w).

Definition call (c : Call) : M unit := modify (with_call c).

(** ** [resize] *)

Definition resized (b : Browser) (c : HTMLCanvasElement) : HTMLCanvasElement :=
  let screenWidth := JS.Math_max (clientWidth b) (JS.or_else (innerWidth b) 0%float) in
  let screenHeight := JS.Math_max (clientHeight b) (JS.or_else (innerHeight b) 0%float) in
  let canvasWidth := 600%float in
  let canvasHeight := 600%float in
  let scale := JS.Math_min (PrimFloat.div screenWidth canvasWidth)
                           (PrimFloat.div screenHeight canvasHeight) in
  let enlargedWidth := JS.Math_floor (PrimFloat.mul scale canvasWidth) in
  let enlargedHeight := JS.Math_floor (PrimFloat.mul scale canvasHeight) in
  let horizontalMargin := PrimFloat.div (PrimFloat.sub screenWidth enlargedWidth) 2%float in
  let verticalMargin := PrimFloat.div (PrimFloat.sub screenHeight enlargedHeight) 2%float in
  let s1 := <["width" := px enlargedWidth]> (style c) in
  let s2 := <["height" := px enlargedHeight]> s1 in
  let s3 := <["marginRight" := px horizontalMargin]> s2 in
  let s4 := <["marginLeft" := px horizontalMargin]> s3 in
  let s5 := <["marginBottom" := px verticalMargin]> s4 in
  let s6 := <["marginTop" := px verticalMargin]> s5 in
  {| width := width c; height := height c; style := s6 |}.

Definition resize : M unit :=
  modify (fun w => with_canvas (resized (browser w) (canvas w)) w).

(** The window is resized: the browser reports new sizes. *)
Definition with_viewport (cw ch iw ih : float) (w : World) : World :=
  let b := browser w in
  {| browser := {| clientWidth := cw; clientHeight := ch;
                   innerWidth := iw; innerHeight := ih;
                   navigator_gpu := navigator_gpu b;
                   adapter_found := adapter_found b;
                   context_found := context_found b;
                   preferredCanvasFormat := preferredCanvasFormat b;
                   Math_random := Math_random b |};
     canvas := canvas w; listeners := listeners w;
     calls := calls w; uploaded := uploaded w; created := created w;
     drawn := drawn w; step := step w |}.

(** ** Browser and device operations *)

(** [Math.random()]: the next draw of the browser's source. *)
Definition random : M Q :=
  fun w => (Return (Math_random (browser w) (drawn w)), with_drawn (S (drawn w)) w).

Definition device_createBuffer (label : string) (size usage : Z) : M GPUBuffer :=
  fun w =>
    let b := {| buf_id := created w; buf_label := label;
                buf_size := size; buf_usage := usage |} in
    (Return b, with_call (createBuffer b) (with_created (S (created w)) w)).

(** [device.queue.writeBuffer(b, 0, data)]: every use in the program starts
    at offset [0] with data of the buffer's size, so the upload replaces
    what the host had written to [b]. *)
Definition queue_writeBuffer (b : GPUBuffer) (offset : Z) (data : TypedArray) : M unit :=
  modify (fun w => with_call (writeBuffer b offset data) (with_upload (buf_id b) data w)).

(** ** The closure of [updateGrid] *)

(** The constants of [init] that [updateGrid] captures. *)
Record Env := {
  GRID_SIZE : Z;
  uniformBuffer : GPUBuffer;
  cellStateStorage : list GPUBuffer;
  vertices : list float;
  vertexBuffer : GPUBuffer;
  bindGroupLayout : GPUBindGroupLayout;
  bindGroups : list GPUBindGroup;
  cellPipeline : GPURenderPipeline;
  simulatePipeline : GPUComputePipeline;
  UPDATE_INTERVAL : Z
}.

Definition Z2float (z : Z) : float := PrimFloat.of_uint63 (Uint63.of_Z z).

(** [cellStateStorage[i]] and [bindGroups[i]]: reading past the end yields
    [undefined], and passing that on is a [TypeError]. *)
Definition index {A} (l : list A) (i : Z) : M A :=
  match (if 0 <=? i then l !! Z.to_nat i else None) with
  | Some x => ret x
  | None => throw "TypeError"
  end.

(** [Math.random() > 0.4 ? 1 : 0] for the draw [r]. *)
Definition seed_cell (r : Q) : Z := if JS.Qgtb r JS.lit_0_4 then 1 else 0.

Section Program.

(** Imported from [./CellShader] and [./ComputeShader]. *)
Variables CellShader ComputeShader : string.
Variable WORKGROUP_SIZE : positive.

(** *** [init], lines 9 to 26: acquiring the device and the context

    Here [requestDevice] resolves, and the page has the canvas element;
    [acquire_on] and [init_on] below lift both assumptions. *)
Definition acquire : M string :=
  (gpu <- get (fun w => navigator_gpu (browser w)) ;;
   if negb gpu then throw "WebGPU not supported on this browser" else
   call requestAdapter ;;
   adaptor <- get (fun w => adapter_found (browser w)) ;;
   if negb adaptor then throw "No appropriate GPUAdapter found." else
   call requestDevice ;;
   call (getContext "webgpu") ;;
   context <- get (fun w => context_found (browser w)) ;;
   if negb context then throw "Could not get canvas context" else
   call getPreferredCanvasFormat ;;
   canvasFormat <- get (fun w => preferredCanvasFormat (browser w)) ;;
   call (configure canvasFormat) ;;
   ret canvasFormat)%prog.

(** *** [init], lines 52 to 54: the seeding loop

    [for (let i = 0; i < cellStateArray.length; i += 3)]; [fuel] bounds
    the number of iterations. *)
Fixpoint seed_loop (fuel : nat) (i : nat) (cellStateArray : list Z) : M (list Z) :=
  if (i <? length cellStateArray)%nat then
    match fuel with
    | O => fun w => (OutOfFuel, w)
    | S fuel' =>
        (r <- random ;;
         seed_loop fuel' (i + 3) (<[i := seed_cell r]> cellStateArray))%prog
    end
  else ret cellStateArray.

Definition seed (cellStateArray : list Z) : M (list Z) :=
  seed_loop (length cellStateArray) 0 cellStateArray.

(** [new Float32Array([-0.8, -0.8, 0.8, ...])]: an element holds the
    binary32 nearest to its literal, [0x1.99999ap-1 = 0.800000011920929]
    for [0.8]. *)
Definition the_vertices : list float :=
  [ -0x1.99999ap-1; -0x1.99999ap-1; 0x1.99999ap-1; -0x1.99999ap-1;
    0x1.99999ap-1; 0x1.99999ap-1;
    -0x1.99999ap-1; -0x1.99999ap-1; 0x1.99999ap-1; 0x1.99999ap-1;
    -0x1.99999ap-1; 0x1.99999ap-1 ]%float.

Definition the_bindGroupLayout : GPUBindGroupLayout :=
  {| bgl_label := "Cell Bind Group Layout";
     bgl_entries :=
       [ {| le_binding := 0;
            le_visibility := Z.lor (Z.lor GPUShaderStage.FRAGMENT GPUShaderStage.COMPUTE)
                                   GPUShaderStage.VERTEX;
            le_type := uniform |};
         {| le_binding := 1;
            le_visibility := Z.lor GPUShaderStage.COMPUTE GPUShaderStage.VERTEX;
            le_type := read_only_storage |};
         {| le_binding := 2;
            le_visibility := GPUShaderStage.COMPUTE;
            le_type := storage |} ] |}.

(** *** [init], lines 28 to 177: buffers, pipelines and the timer *)
Definition setup (canvasFormat : string) : M Env :=
  (let GRID_SIZE := 32 in
   let uniformArray := Float32Array [Z2float GRID_SIZE; Z2float GRID_SIZE] in
   uniformBuffer <- device_createBuffer "Grid Uniforms" (byteLength uniformArray)
                      (Z.lor GPUBufferUsage.UNIFORM GPUBufferUsage.COPY_DST) ;;
   queue_writeBuffer uniformBuffer 0 uniformArray ;;
   let cellStateArray := new_Uint32Array (GRID_SIZE * GRID_SIZE) in
   stateA <- device_createBuffer "Cell State A" (byteLength (Uint32Array cellStateArray))
               (Z.lor GPUBufferUsage.STORAGE GPUBufferUsage.COPY_DST) ;;
   stateB <- device_createBuffer "Cell State B" (byteLength (Uint32Array cellStateArray))
               (Z.lor GPUBufferUsage.STORAGE GPUBufferUsage.COPY_DST) ;;
   let cellStateStorage := [stateA; stateB] in
   cellStateArray <- seed cellStateArray ;;
   storage0 <- index cellStateStorage 0 ;;
   queue_writeBuffer storage0 0 (Uint32Array cellStateArray) ;;
   storage1 <- index cellStateStorage 1 ;;
   queue_writeBuffer storage1 0 (Uint32Array cellStateArray) ;;
   let vertices := the_vertices in
   vertexBuffer <- device_createBuffer "Cell verticies" (byteLength (Float32Array vertices))
                     (Z.lor GPUBufferUsage.VERTEX GPUBufferUsage.COPY_DST) ;;
   queue_writeBuffer vertexBuffer 0 (Float32Array vertices) ;;
   let vertexBufferLayout :=
     {| arrayStride := 8; attr_format := "float32x2";
        attr_offset := 0; attr_shaderLocation := 0 |} in
   let cellShaderModule := {| sm_label := "Cell shader"; sm_code := CellShader |} in
   call (createShaderModule cellShaderModule) ;;
   let simulateShaderModule :=
     {| sm_label := "Game of Life simulation shader"; sm_code := ComputeShader |} in
   call (createShaderModule simulateShaderModule) ;;
   let bindGroupLayout := the_bindGroupLayout in
   call (createBindGroupLayout bindGroupLayout) ;;
   a0 <- index cellStateStorage 0 ;;
   a1 <- index cellStateStorage 1 ;;
   let bindGroupA :=
     {| bg_label := "Cell renderer bind group A"; bg_layout := bindGroupLayout;
        bg_entries := [ {| binding := 0; resource := uniformBuffer |};
                        {| binding := 1; resource := a0 |};
                        {| binding := 2; resource := a1 |} ] |} in
   call (createBindGroup bindGroupA) ;;
   b1 <- index cellStateStorage 1 ;;
   b0 <- index cellStateStorage 0 ;;
   let bindGroupB :=
     {| bg_label := "Cell renderer bind group B"; bg_layout := bindGroupLayout;
        bg_entries := [ {| binding := 0; resource := uniformBuffer |};
                        {| binding := 1; resource := b1 |};
                        {| binding := 2; resource := b0 |} ] |} in
   call (createBindGroup bindGroupB) ;;
   let bindGroups := [bindGroupA; bindGroupB] in
   let pipelineLayout :=
     {| pl_label := "Cell Pipeline Layout"; pl_bindGroupLayouts := [bindGroupLayout] |} in
   call (createPipelineLayout pipelineLayout) ;;
   let cellPipeline :=
     {| rp_label := "Cell pipeline"; rp_layout := pipelineLayout;
        rp_vertex_module := cellShaderModule; rp_vertex_entryPoint := "vertexMain";
        rp_vertex_buffers := [vertexBufferLayout];
        rp_fragment_module := cellShaderModule; rp_fragment_entryPoint := "fragmentMain";
        rp_fragment_targets := [canvasFormat] |} in
   call (createRenderPipeline cellPipeline) ;;
   let simulatePipeline :=
     {| cp_label := "Simulation pipeline"; cp_layout := pipelineLayout;
        cp_module := simulateShaderModule; cp_entryPoint := "computeMain" |} in
   call (createComputePipeline simulatePipeline) ;;
   let UPDATE_INTERVAL := 500 in
   modify (with_step 0) ;;
   call (setInterval UPDATE_INTERVAL) ;;
   ret {| GRID_SIZE := GRID_SIZE; uniformBuffer := uniformBuffer;
          cellStateStorage := cellStateStorage; vertices := vertices;
          vertexBuffer := vertexBuffer; bindGroupLayout := bindGroupLayout;
          bindGroups := bindGroups; cellPipeline := cellPipeline;
          simulatePipeline := simulatePipeline;
          UPDATE_INTERVAL := UPDATE_INTERVAL |})%prog.

Definition init : M Env :=
  (resize ;;
   canvasFormat <- acquire ;;
   setup canvasFormat)%prog.

(** *** [updateGrid], lines 181 to 212

    [step % 2] is [Z.rem]: on integers [%] takes the sign of the dividend.
    [vertices.length / 2] is exact, the length being even. *)
Definition updateGrid (e : Env) : M unit :=
  (call createCommandEncoder ;;
   s <- get step ;;
   computeGroup <- index (bindGroups e) (Z.rem s 2) ;;
   let workgroupCount := JS.ceil_div (GRID_SIZE e) WORKGROUP_SIZE in
   let computePass :=
     ComputePass [ setPipeline (ComputePipeline (simulatePipeline e));
                   setBindGroup 0 computeGroup;
                   dispatchWorkgroups workgroupCount workgroupCount ] in
   modify (fun w => with_step (JS.js_incr (step w)) w) ;;
   call getCurrentTexture ;;
   s' <- get step ;;
   renderGroup <- index (bindGroups e) (Z.rem s' 2) ;;
   let renderPass :=
     RenderPass [ {| loadOp := "clear"; clearValue := [0; 0; 0.1; 1]%float;
                     storeOp := "store" |} ]
                [ setPipeline (RenderPipeline (cellPipeline e));
                  setBindGroup 0 renderGroup;
                  setVertexBuffer 0 (vertexBuffer e);
                  draw (Z.of_nat (length (vertices e)) / 2)
                       (GRID_SIZE e * GRID_SIZE e) ] in
   call (submit [computePass; renderPass]))%prog.

(** *** The module: lines 4, 5 and 241 *)
Definition main : M Env :=
  (modify (with_listener "resize") ;;
   init)%prog.

End Program.

(** The world in which the module starts to run. *)
Definition page (b : Browser) (c : HTMLCanvasElement) : World :=
  {| browser := b; canvas := c; listeners := []; calls := [];
     uploaded := ∅; created := 0; drawn := 0; step := 0 |}.

(** ** What happens after [init]: timer ticks and resize events *)

Section Running.

Variable WORKGROUP_SIZE : positive.
Variable e : Env.

(** [runs w0 t w]: from [w0], the browser has called [updateGrid] [t]
    times, and the [resize] handler any number of times in between, and
    the world is now [w]. *)
Inductive runs (w0 : World) : N -> World -> Prop :=
| runs_start : runs w0 0%N w0
| runs_tick t w w' :
    runs w0 t w ->
    updateGrid WORKGROUP_SIZE e w = (Return tt, w') ->
    runs w0 (N.succ t) w'
| runs_resize t w cw ch iw ih w' :
    runs w0 t w ->
    resize (with_viewport cw ch iw ih w) = (Return tt, w') ->
    runs w0 t w'.

End Running.

(** ** Reading the log *)

Definition is_createBuffer (c : Call) : bool :=
  match c with createBuffer _ => true | _ => false end.

Definition is_setInterval (c : Call) : bool :=
  match c with setInterval _ => true | _ => false end.

Definition created_bindGroups (cs : list Call) : list GPUBindGroup :=
  omap (fun c => match c with createBindGroup g => Some g | _ => None end) cs.

Definition submitted (cs : list Call) : list (list Pass) :=
  omap (fun c => match c with submit cb => Some cb | _ => None end) cs.

(** The data of the uploads to buffer [b], oldest first. *)
Definition uploads_to (b : GPUBuffer) (cs : list Call) : list TypedArray :=
  omap (fun c => match c with
                 | writeBuffer b' _ d => if decide (buf_id b' = buf_id b) then Some d else None
                 | _ => None
                 end) cs.

Definition pass_bindGroups (cmds : list PassCommand) : list GPUBindGroup :=
  omap (fun c => match c with setBindGroup _ g => Some g | _ => None end) cmds.

Definition pass_dispatches (cmds : list PassCommand) : list (Z * Z) :=
  omap (fun c => match c with dispatchWorkgroups x y => Some (x, y) | _ => None end) cmds.

Definition pass_draws (cmds : list PassCommand) : list (Z * Z) :=
  omap (fun c => match c with draw v i => Some (v, i) | _ => None end) cmds.

Definition compute_passes (cb : list Pass) : list (list PassCommand) :=
  omap (fun p => match p with ComputePass cmds => Some cmds | _ => None end) cb.

Definition render_passes (cb : list Pass) : list (list PassCommand) :=
  omap (fun p => match p with RenderPass _ cmds => Some cmds | _ => None end) cb.

(** ** What a bind group gives a shader stage access to *)

Definition bound_at (g : GPUBindGroup) (n : Z) : list GPUBuffer :=
  resource <$> filter (fun en => binding en = n) (bg_entries g).

Definition visible_to (stages : Z) (le : LayoutEntry) : bool :=
  negb (Z.land (le_visibility le) stages =? 0).

Definition has_type (t : BufferBindingType) (le : LayoutEntry) : bool :=
  match t, le_type le with
  | uniform, uniform | read_only_storage, read_only_storage | storage, storage => true
  | _, _ => false
  end.

(** The buffers that [g] binds to entries of type [t] visible to [stages]. *)
Definition bound_as (t : BufferBindingType) (stages : Z) (g : GPUBindGroup) : list GPUBuffer :=
  flat_map (fun le => if visible_to stages le && has_type t le
                      then bound_at g (le_binding le) else [])
           (bgl_entries (bg_layout g)).

(** A compute pass can write the writable storage of its bind groups. *)
Definition written_by_compute (cb : list Pass) : list GPUBuffer :=
  flat_map (bound_as storage GPUShaderStage.COMPUTE)
           (flat_map pass_bindGroups (compute_passes cb)).

(** A render pass reads the read-only storage that its bind groups show to
    the vertex and fragment stages. *)
Definition read_by_render (cb : list Pass) : list GPUBuffer :=
  flat_map (bound_as read_only_storage
              (Z.lor GPUShaderStage.VERTEX GPUShaderStage.FRAGMENT))
           (flat_map pass_bindGroups (render_passes cb)).

(** ** The seeding threshold, seen as a probability

    The [n] equally likely draws [0/n, 1/n, ..., (n-1)/n] of a uniform
    source of resolution [n]. *)
Definition draws (n : positive) : list Q :=
  (fun k => Z.of_nat k # n) <$> seq 0 (Pos.to_nat n).

Definition count_alive (n : positive) : nat :=
  length (filter (fun r => seed_cell r = 1) (draws n)).

Definition count_dead (n : positive) : nat :=
  length (filter (fun r => seed_cell r = 0) (draws n)).

(** The reading of "about 60% dead" that the specification's wording
    gives: the share of draws that leave the cell dead is within five
    points of sixty percent. *)
Definition spec_dead_share (n : positive) : Prop :=
  (55 * Pos.to_nat n <= 100 * count_dead n <= 65 * Pos.to_nat n)%nat.

(** The calls of a successful [acquire]. *)
Definition acquired_calls (b : Browser) : list Call :=
  [ requestAdapter; requestDevice; getContext "webgpu";
    getPreferredCanvasFormat; configure (preferredCanvasFormat b) ].

(** ** What [setup] leaves behind

    [set_up CS SS fmt w e w' cells A B]: started in [w], [setup] has
    returned the closure [e] in the world [w']; the seeded array is
    [cells] and the two state buffers are [A] and [B]. *)
Record set_up (CellShader ComputeShader canvasFormat : string)
    (w : World) (e : Env) (w' : World) (cells : list Z) (A B : GPUBuffer) : Prop := {
  su_length : length cells = 1024%nat;
  su_cells : forall j : nat,
      cells !! j =
      if decide ((j < 1024)%nat /\ (j mod 3 = 0)%nat)
      then Some (seed_cell (Math_random (browser w) (drawn w + j / 3)%nat))
      else if decide (j < 1024)%nat then Some 0 else None;
  su_GRID_SIZE : GRID_SIZE e = 32;
  su_UPDATE_INTERVAL : UPDATE_INTERVAL e = 500;
  su_vertices : vertices e = the_vertices;
  su_layout : bindGroupLayout e = the_bindGroupLayout;
  su_uniformBuffer : uniformBuffer e =
    {| buf_id := created w; buf_label := "Grid Uniforms"; buf_size := 8;
       buf_usage := Z.lor GPUBufferUsage.UNIFORM GPUBufferUsage.COPY_DST |};
  su_A : A =
    {| buf_id := S (created w); buf_label := "Cell State A"; buf_size := 4096;
       buf_usage := Z.lor GPUBufferUsage.STORAGE GPUBufferUsage.COPY_DST |};
  su_B : B =
    {| buf_id := S (S (created w)); buf_label := "Cell State B"; buf_size := 4096;
       buf_usage := Z.lor GPUBufferUsage.STORAGE GPUBufferUsage.COPY_DST |};
  su_vertexBuffer : vertexBuffer e =
    {| buf_id := S (S (S (created w))); buf_label := "Cell verticies"; buf_size := 48;
       buf_usage := Z.lor GPUBufferUsage.VERTEX GPUBufferUsage.COPY_DST |};
  su_storage : cellStateStorage e = [A; B];
  su_bindGroups : bindGroups e =
    [ {| bg_label := "Cell renderer bind group A"; bg_layout := the_bindGroupLayout;
         bg_entries := [ {| binding := 0; resource := uniformBuffer e |};
                         {| binding := 1; resource := A |};
                         {| binding := 2; resource := B |} ] |};
      {| bg_label := "Cell renderer bind group B"; bg_layout := the_bindGroupLayout;
         bg_entries := [ {| binding := 0; resource := uniformBuffer e |};
                         {| binding := 1; resource := B |};
                         {| binding := 2; resource := A |} ] |} ];
  su_cellPipeline : cellPipeline e =
    {| rp_label := "Cell pipeline";
       rp_layout := {| pl_label := "Cell Pipeline Layout";
                       pl_bindGroupLayouts := [the_bindGroupLayout] |};
       rp_vertex_module := {| sm_label := "Cell shader"; sm_code := CellShader |};
       rp_vertex_entryPoint := "vertexMain";
       rp_vertex_buffers := [ {| arrayStride := 8; attr_format := "float32x2";
                                 attr_offset := 0; attr_shaderLocation := 0 |} ];
       rp_fragment_module := {| sm_label := "Cell shader"; sm_code := CellShader |};
       rp_fragment_entryPoint := "fragmentMain";
       rp_fragment_targets := [canvasFormat] |};
  su_simulatePipeline : simulatePipeline e =
    {| cp_label := "Simulation pipeline";
       cp_layout := {| pl_label := "Cell Pipeline Layout";
                       pl_bindGroupLayouts := [the_bindGroupLayout] |};
       cp_module := {| sm_label := "Game of Life simulation shader";
                       sm_code := ComputeShader |};
       cp_entryPoint := "computeMain" |};
  su_calls : calls w' =
    (calls w ++
    [ createBuffer (uniformBuffer e);
      writeBuffer (uniformBuffer e) 0 (Float32Array [Z2float 32; Z2float 32]);
      createBuffer A;
      createBuffer B;
      writeBuffer A 0 (Uint32Array cells);
      writeBuffer B 0 (Uint32Array cells);
      createBuffer (vertexBuffer e);
      writeBuffer (vertexBuffer e) 0 (Float32Array the_vertices);
      createShaderModule (rp_vertex_module (cellPipeline e));
      createShaderModule (cp_module (simulatePipeline e));
      createBindGroupLayout the_bindGroupLayout ] ++
    (createBindGroup <$> bindGroups e) ++
    [ createPipelineLayout (rp_layout (cellPipeline e));
      createRenderPipeline (cellPipeline e);
      createComputePipeline (simulatePipeline e);
      setInterval 500 ])%list;
  su_uploaded : uploaded w' =
    <[buf_id (vertexBuffer e) := Float32Array the_vertices]>
      (<[buf_id B := Uint32Array cells]>
         (<[buf_id A := Uint32Array cells]>
            (<[buf_id (uniformBuffer e) := Float32Array [Z2float 32; Z2float 32]]>
               (uploaded w))));
  su_step : step w' = 0;
  su_created : created w' = S (S (S (S (created w))));
  su_canvas : canvas w' = canvas w;
  su_browser : browser w' = browser w;
  su_listeners : listeners w' = listeners w
}.

(** ** The command buffer of a tick

    What [updateGrid] submits when the compute pass binds [cg] and the
    render pass binds [rg]. *)
Definition frame (WORKGROUP_SIZE : positive) (e : Env) (cg rg : GPUBindGroup) : list Pass :=
  [ ComputePass [ setPipeline (ComputePipeline (simulatePipeline e));
                  setBindGroup 0 cg;
                  dispatchWorkgroups (JS.ceil_div (GRID_SIZE e) WORKGROUP_SIZE)
                                     (JS.ceil_div (GRID_SIZE e) WORKGROUP_SIZE) ];
    RenderPass [ {| loadOp := "clear"; clearValue := [0; 0; 0.1; 1]%float;
                    storeOp := "store" |} ]
               [ setPipeline (RenderPipeline (cellPipeline e));
                 setBindGroup 0 rg;
                 setVertexBuffer 0 (vertexBuffer e);
                 draw (Z.of_nat (length (vertices e)) / 2)
                      (GRID_SIZE e * GRID_SIZE e) ] ].

(** The calls a tick adds to the log. *)
Definition is_tick_call (c : Call) : bool :=
  match c with
  | createCommandEncoder | getCurrentTexture | submit _ => true
  | _ => false
  end.

(** Selection between two values by the parity of a counter. *)
Definition by_parity {A} (x0 x1 : A) (s : Z) : A := if Z.even s then x0 else x1.

(** The world a tick leaves when it binds [cg] and then [rg]. *)
Definition ticked (WORKGROUP_SIZE : positive) (e : Env) (cg rg : GPUBindGroup)
    (w : World) : World :=
  with_call (submit (frame WORKGROUP_SIZE e cg rg))
    (with_call getCurrentTexture
       (with_step (JS.js_incr (step w))
          (with_call createCommandEncoder w))).

(** ** A concrete page, for examples

    A 1280 by 720 window on a browser with WebGPU, whose random source
    cycles through [0, 0.1, ..., 0.9]. *)
Definition demo_browser : Browser :=
  {| clientWidth := 1280; clientHeight := 720;
     innerWidth := 1280; innerHeight := 720;
     navigator_gpu := true; adapter_found := true; context_found := true;
     preferredCanvasFormat := "bgra8unorm";
     Math_random := fun k => Z.of_nat (k mod 10) # 10 |}.

Definition demo_canvas : HTMLCanvasElement :=
  {| width := 300; height := 150; style := ∅ |}.

(** The same browser without WebGPU. *)
Definition old_browser : Browser :=
  {| clientWidth := 1280; clientHeight := 720;
     innerWidth := 1280; innerHeight := 720;
     navigator_gpu := false; adapter_found := false; context_found := false;
     preferredCanvasFormat := "";
     Math_random := fun k => 0%Q |}.

(** ** Further observations

    The browser fires a resize event: the window has new sizes and the
    handler runs. *)
Definition resize_event (cw ch iw ih : float) : M unit :=
  (modify (with_viewport cw ch iw ih) ;; resize)%prog.

(** [b] was created with the usage bit [flag]. *)
Definition has_usage (flag : Z) (b : GPUBuffer) : bool :=
  negb (Z.land (buf_usage b) flag =? 0).

(** An upload is in order when its target may be copied to and the data,
    written from offset [0], is exactly as long as the buffer. *)
Definition upload_fills (c : Call) : bool :=
  match c with
  | writeBuffer b offset data =>
      has_usage GPUBufferUsage.COPY_DST b && (offset =? 0) &&
      (byteLength data =? buf_size b)
  | _ => true
  end.

(** The usage a buffer needs to be bound to a layout entry of type [t]. *)
Definition usage_for (t : BufferBindingType) : Z :=
  match t with
  | uniform => GPUBufferUsage.UNIFORM
  | read_only_storage | storage => GPUBufferUsage.STORAGE
  end.

(** [g] binds exactly one buffer, of the right usage, to the entry [le] of
    its layout. *)
Definition entry_conforms (g : GPUBindGroup) (le : LayoutEntry) : bool :=
  match bound_at g (le_binding le) with
  | [b] => has_usage (usage_for (le_type le)) b
  | _ => false
  end.

(** [g] has one conforming entry for each entry of its layout, and no
    other. *)
Definition group_conforms (g : GPUBindGroup) : bool :=
  forallb (entry_conforms g) (bgl_entries (bg_layout g)) &&
  (length (bg_entries g) =? length (bgl_entries (bg_layout g)))%nat.

(** The read-only storage of the bind groups of the compute passes. *)
Definition read_by_compute (cb : list Pass) : list GPUBuffer :=
  flat_map (bound_as read_only_storage GPUShaderStage.COMPUTE)
           (flat_map pass_bindGroups (compute_passes cb)).

Definition pass_vertexBuffers (cmds : list PassCommand) : list GPUBuffer :=
  omap (fun c => match c with setVertexBuffer _ b => Some b | _ => None end) cmds.

Definition pass_pipelines (cmds : list PassCommand) : list Pipeline :=
  omap (fun c => match c with setPipeline p => Some p | _ => None end) cmds.

(** The calls that [frames] ticks add to the log, one command buffer
    each. *)
Definition tick_log (frames : list (list Pass)) : list Call :=
  flat_map (fun cb => [createCommandEncoder; getCurrentTexture; submit cb]) frames.

Definition is_createCommandEncoder (c : Call) : bool :=
  match c with createCommandEncoder => true | _ => false end.

Definition is_getCurrentTexture (c : Call) : bool :=
  match c with getCurrentTexture => true | _ => false end.

(** *** [init] where the page or the adapter lets it down

    [main] above is [init] on a page that has the element
    [webgpu-canvas], with an adapter whose [requestDevice] resolves. A
    [Host] says whether [document.getElementById] finds the element (line
    4) and whether [requestDevice] is refused, and with what reason (line
    18). Without the element, [canvas] is [null]: [resize] computes the
    sizes and throws a [TypeError] at its first use of [canvas], line 235,
    having changed nothing. A refused [requestDevice] makes the [await]
    of line 18 throw the reason. *)
Record Host := {
  canvas_found : bool;
  device_refused : option string
}.

Definition resize_on (h : Host) : M unit :=
  if canvas_found h then resize else throw "TypeError".

Definition acquire_on (h : Host) : M string :=
  (gpu <- get (fun w => navigator_gpu (browser w)) ;;
   if negb gpu then throw "WebGPU not supported on this browser" else
   call requestAdapter ;;
   adaptor <- get (fun w => adapter_found (browser w)) ;;
   if negb adaptor then throw "No appropriate GPUAdapter found." else
   call requestDevice ;;
   match device_refused h with
   | Some reason => throw reason
   | None =>
       call (getContext "webgpu") ;;
       context <- get (fun w => context_found (browser w)) ;;
       if negb context then throw "Could not get canvas context" else
       call getPreferredCanvasFormat ;;
       canvasFormat <- get (fun w => preferredCanvasFormat (browser w)) ;;
       call (configure canvasFormat) ;;
       ret canvasFormat
   end)%prog.

Definition init_on (CellShader ComputeShader : string) (h : Host) : M Env :=
  (resize_on h ;;
   canvasFormat <- acquire_on h ;;
   setup CellShader ComputeShader canvasFormat)%prog.

Definition main_on (CellShader ComputeShader : string) (h : Host) : M Env :=
  (modify (with_listener "resize") ;;
   init_on CellShader ComputeShader h)%prog.

(** The host that [main] takes for granted. *)
Definition sound_host : Host :=
  {| canvas_found := true; device_refused := None |}.

(** *** Device resources are created before they are used *)

#[global] Instance GPUBuffer_eq_dec : EqDecision GPUBuffer.
Proof. solve_decision. Defined.

#[global] Instance GPUShaderModule_eq_dec : EqDecision GPUShaderModule.
Proof. solve_decision. Defined.

#[global] Instance BufferBindingType_eq_dec : EqDecision BufferBindingType.
Proof. solve_decision. Defined.

#[global] Instance LayoutEntry_eq_dec : EqDecision LayoutEntry.
Proof. solve_decision. Defined.

#[global] Instance GPUBindGroupLayout_eq_dec : EqDecision GPUBindGroupLayout.
Proof. solve_decision. Defined.

#[global] Instance BindGroupEntry_eq_dec : EqDecision BindGroupEntry.
Proof. solve_decision. Defined.

#[global] Instance GPUBindGroup_eq_dec : EqDecision GPUBindGroup.
Proof. solve_decision. Defined.

#[global] Instance GPUPipelineLayout_eq_dec : EqDecision GPUPipelineLayout.
Proof. solve_decision. Defined.

#[global] Instance GPUVertexBufferLayout_eq_dec : EqDecision GPUVertexBufferLayout.
Proof. solve_decision. Defined.

#[global] Instance GPURenderPipeline_eq_dec : EqDecision GPURenderPipeline.
Proof. solve_decision. Defined.

#[global] Instance GPUComputePipeline_eq_dec : EqDecision GPUComputePipeline.
Proof. solve_decision. Defined.

(** The resources that the device's seven [create...] methods for
    buffers, shader modules, layouts, bind groups and pipelines return.
    Other calls return objects too: the adapter, the device, the canvas
    context, and on every tick a command encoder, two pass encoders, a
    texture with its view and a command buffer. Those are not resources in
    this sense and are not tracked below. *)
Inductive Resource :=
| Buffer (b : GPUBuffer)
| ShaderModule (m : GPUShaderModule)
| BindGroupLayout (l : GPUBindGroupLayout)
| BindGroup (g : GPUBindGroup)
| PipelineLayout (l : GPUPipelineLayout)
| RenderPipelineObject (p : GPURenderPipeline)
| ComputePipelineObject (p : GPUComputePipeline).

#[global] Instance Resource_eq_dec : EqDecision Resource.
Proof. solve_decision. Defined.

(** The resource that a call returns, when it is one of the seven
    methods. *)
Definition resource_created (c : Call) : option Resource :=
  match c with
  | createBuffer b => Some (Buffer b)
  | createShaderModule m => Some (ShaderModule m)
  | createBindGroupLayout l => Some (BindGroupLayout l)
  | createBindGroup g => Some (BindGroup g)
  | createPipelineLayout l => Some (PipelineLayout l)
  | createRenderPipeline p => Some (RenderPipelineObject p)
  | createComputePipeline p => Some (ComputePipelineObject p)
  | _ => None
  end.

(** The resources that a pass command is given. *)
Definition command_resources (c : PassCommand) : list Resource :=
  match c with
  | setPipeline (RenderPipeline p) => [RenderPipelineObject p]
  | setPipeline (ComputePipeline p) => [ComputePipelineObject p]
  | setBindGroup _ g => [BindGroup g]
  | setVertexBuffer _ b => [Buffer b]
  | dispatchWorkgroups _ _ | draw _ _ => []
  end.

Definition pass_commands (p : Pass) : list PassCommand :=
  match p with
  | ComputePass cmds | RenderPass _ cmds => cmds
  end.

(** The resources among the arguments of a call. *)
Definition resources_taken (c : Call) : list Resource :=
  match c with
  | writeBuffer b _ _ => [Buffer b]
  | createBindGroup g =>
      BindGroupLayout (bg_layout g) :: (Buffer <$> (resource <$> bg_entries g))
  | createPipelineLayout l => BindGroupLayout <$> pl_bindGroupLayouts l
  | createRenderPipeline p =>
      [ PipelineLayout (rp_layout p); ShaderModule (rp_vertex_module p);
        ShaderModule (rp_fragment_module p) ]
  | createComputePipeline p =>
      [ PipelineLayout (cp_layout p); ShaderModule (cp_module p) ]
  | submit cb => flat_map command_resources (flat_map pass_commands cb)
  | _ => []
  end.

(** Scanning a log from the resources [known] so far: the resources among
    the arguments of each call were returned by earlier calls. *)
Fixpoint resources_created_before_use (known : list Resource) (cs : list Call) : bool :=
  match cs with
  | [] => true
  | c :: cs' =>
      forallb (fun r => bool_decide (r ∈ known)) (resources_taken c) &&
      resources_created_before_use (match resource_created c with
                          | Some r => r :: known
                          | None => known
                          end) cs'
  end.

(** The bind groups a pass sets, with their index. *)
Definition pass_bindings (cmds : list PassCommand) : list (Z * GPUBindGroup) :=
  omap (fun c => match c with setBindGroup i g => Some (i, g) | _ => None end) cmds.

(** The layouts of a pipeline. *)
Definition pipeline_layouts (p : Pipeline) : list GPUBindGroupLayout :=
  match p with
  | RenderPipeline p => pl_bindGroupLayouts (rp_layout p)
  | ComputePipeline p => pl_bindGroupLayouts (cp_layout p)
  end.

(** In a pass, each bind group is set at an index of the pipeline set
    before it, and has the layout that the pipeline has there. *)
Fixpoint bindings_match (current : option Pipeline) (cmds : list PassCommand) : bool :=
  match cmds with
  | [] => true
  | setPipeline p :: cmds' => bindings_match (Some p) cmds'
  | setBindGroup i g :: cmds' =>
      match current with
      | Some p =>
          (0 <=? i) &&
          bool_decide (pipeline_layouts p !! Z.to_nat i = Some (bg_layout g)) &&
          bindings_match current cmds'
      | None => false
      end
  | _ :: cmds' => bindings_match current cmds'
  end.

(** The formats the canvas context has been configured with. *)
Definition configured_formats (cs : list Call) : list string :=
  omap (fun c => match c with configure f => Some f | _ => None end) cs.

(** * Properties *)

(** ** The number model on concrete inputs *)

(** [js_incr] agrees with binary64 addition on both sides of [2^53]. *)
Example incr_below_2_53 :
  PrimFloat.add (Z2float (2 ^ 53 - 1)) 1 = Z2float (JS.js_incr (2 ^ 53 - 1)) /\
  JS.js_incr (2 ^ 53 - 1) = 2 ^ 53.
Proof. split; reflexivity. Qed.

Example incr_at_2_53 :
  PrimFloat.add (Z2float (2 ^ 53)) 1 = Z2float (JS.js_incr (2 ^ 53)) /\
  JS.js_incr (2 ^ 53) = 2 ^ 53.
Proof. split; reflexivity. Qed.

Example floor_examples :
  JS.Math_floor 2.5 = 2%float /\ JS.Math_floor (-0.3) = (-1)%float /\
  JS.Math_floor 719.9999 = 719%float /\ JS.Math_floor (-2) = (-2)%float.
Proof. repeat split. Qed.

(** The literal: [0.4] itself is not above it, the next binary64 is. *)
Example seed_cell_examples :
  seed_cell (4 # 10) = 0 /\ seed_cell JS.lit_0_4 = 0 /\
  seed_cell (3602879701896398 # 9007199254740992) = 1 /\ seed_cell (1 # 2) = 1.
Proof. repeat split. Qed.

(** A 1280 by 720 window: the canvas is shown 720 pixels square, centred. *)
Example resize_demo :
  let s := style (resized demo_browser demo_canvas) in
  s !! "width" = Some (px 720) /\ s !! "height" = Some (px 720) /\
  s !! "marginLeft" = Some (px 280) /\ s !! "marginRight" = Some (px 280) /\
  s !! "marginTop" = Some (px 0) /\ s !! "marginBottom" = Some (px 0) /\
  width (resized demo_browser demo_canvas) = 300.
Proof. vm_compute. repeat split. Qed.

(** ** The seeding loop *)

Ltac arith := zify; Z.to_euclidean_division_equations; lia.

Lemma seed_loop_run fuel :
  forall i (arr : list Z) w,
    (length arr <= i + 3 * fuel)%nat ->
    exists (arr' : list Z) k,
      seed_loop fuel i arr w = (Return arr', with_drawn k w) /\
      length arr' = length arr /\
      forall j : nat,
        arr' !! j =
        if decide ((i <= j < length arr)%nat /\ ((j - i) mod 3 = 0)%nat)
        then Some (seed_cell (Math_random (browser w) (drawn w + (j - i) / 3)%nat))
        else arr !! j.
Proof.
  induction fuel as [|fuel IH]; intros i arr w Hfuel.
  - exists arr, (drawn w). simpl.
    destruct (Nat.ltb_spec i (length arr)); [lia|].
    split; [now destruct w|]. split; [reflexivity|].
    intros j. case_decide; [lia | reflexivity].
  - cbn [seed_loop]. destruct (Nat.ltb_spec i (length arr)) as [Hi|Hi].
    + set (r := Math_random (browser w) (drawn w)).
      destruct (IH (i + 3)%nat (<[i := seed_cell r]> arr) (with_drawn (S (drawn w)) w))
        as (arr' & k & Hrun & Hlen & Hget).
      { rewrite length_insert. lia. }
      exists arr', k. split; [exact Hrun|].
      rewrite length_insert in Hlen, Hget. split; [exact Hlen|].
      intros j. rewrite Hget. cbn [drawn browser with_drawn].
      destruct (decide (j = i)) as [->|Hji].
      * rewrite decide_False by lia.
        rewrite decide_True by (split; [lia | now rewrite Nat.sub_diag]).
        rewrite list_lookup_insert_eq by lia.
        rewrite Nat.sub_diag. simpl. now rewrite Nat.add_0_r.
      * rewrite list_lookup_insert_ne by congruence.
        case_decide as H1; case_decide as H2; try reflexivity.
        -- do 2 f_equal. f_equal. destruct H1 as [H1 H1']. arith.
        -- exfalso. apply H2. destruct H1 as [H1 H1']. split; [lia|]. arith.
        -- exfalso. apply H1. destruct H2 as [H2 H2']. split; [lia|]. arith.
    + exists arr, (drawn w). split; [now destruct w|]. split; [reflexivity|].
      intros j. case_decide; [lia | reflexivity].
Qed.

Lemma seed_run (arr : list Z) w :
  exists (arr' : list Z) k,
    seed arr w = (Return arr', with_drawn k w) /\
    length arr' = length arr /\
    forall j : nat,
      arr' !! j =
      if decide ((j < length arr)%nat /\ (j mod 3 = 0)%nat)
      then Some (seed_cell (Math_random (browser w) (drawn w + j / 3)%nat))
      else arr !! j.
Proof.
  destruct (seed_loop_run (length arr) 0 arr w) as (arr' & k & Hrun & Hlen & Hget); [lia|].
  exists arr', k. split; [exact Hrun|]. split; [exact Hlen|].
  intros j. rewrite Hget, Nat.sub_0_r.
  case_decide; case_decide; try reflexivity; exfalso; intuition lia.
Qed.

(** ** [setup] runs to completion *)

Lemma setup_run CS SS fmt w :
  exists e w' cells A B,
    setup CS SS fmt w = (Return e, w') /\ set_up CS SS fmt w e w' cells A B.
Proof.
  unfold setup.
  cbn -[seed new_Uint32Array insert the_vertices the_bindGroupLayout Z2float].
  unfold bind at 1.
  match goal with
  | |- context [seed ?arr ?w1] =>
      destruct (seed_run arr w1) as (cells & k & Hrun & Hlen & Hget); rewrite Hrun
  end.
  unfold new_Uint32Array in Hlen, Hget. rewrite length_replicate in Hlen, Hget.
  change (Z.to_nat (32 * 32)) with 1024%nat in Hlen, Hget.
  cbn -[insert the_vertices the_bindGroupLayout Z2float Nat.modulo Nat.div].
  do 5 eexists. split; [reflexivity|].
  split; cbn -[insert the_vertices the_bindGroupLayout Z2float Nat.modulo Nat.div];
    try reflexivity.
  - exact Hlen.
  - intros j. rewrite Hget. case_decide; [reflexivity|].
    case_decide.
    + apply lookup_replicate_2. lia.
    + apply lookup_ge_None_2. rewrite length_replicate. lia.
  - rewrite <- !app_assoc. reflexivity.
Qed.

(** ** [main]: the three ways to fail, and success *)

Lemma main_Return CS SS b c e w0 :
  main CS SS (page b c) = (Return e, w0) ->
  navigator_gpu b = true /\ adapter_found b = true /\ context_found b = true /\
  exists w1 cells A B,
    calls w1 = acquired_calls b /\ browser w1 = b /\ canvas w1 = resized b c /\
    listeners w1 = ["resize"] /\ uploaded w1 = ∅ /\ created w1 = 0%nat /\
    drawn w1 = 0%nat /\
    set_up CS SS (preferredCanvasFormat b) w1 e w0 cells A B.
Proof.
  cbv [main init acquire bind get call modify resize throw ret].
  cbn -[setup resized].
  destruct (navigator_gpu b); cbn -[setup resized]; [|discriminate].
  destruct (adapter_found b); cbn -[setup resized]; [|discriminate].
  destruct (context_found b); cbn -[setup resized]; [|discriminate].
  match goal with
  | |- setup _ _ ?fmt ?w1 = _ -> _ =>
      destruct (setup_run CS SS fmt w1) as (e' & w' & cells & A & B & Hrun & Hset);
      rewrite Hrun; intros [= <- <-];
      repeat split; exists w1, cells, A, B
  end.
  repeat split; try reflexivity; apply Hset.
Qed.

Lemma main_total CS SS b c :
  navigator_gpu b = true -> adapter_found b = true -> context_found b = true ->
  exists e w0, main CS SS (page b c) = (Return e, w0).
Proof.
  intros H1 H2 H3. cbv [main init acquire bind get call modify resize throw ret].
  cbn -[setup resized].
  rewrite H1; cbn -[setup resized]. rewrite H2; cbn -[setup resized].
  rewrite H3; cbn -[setup resized].
  match goal with
  | |- context [setup _ _ ?fmt ?w1] =>
      destruct (setup_run CS SS fmt w1) as (e' & w' & cells & A & B & Hrun & Hset)
  end.
  eauto.
Qed.

Lemma main_Throw CS SS b c msg w' :
  main CS SS (page b c) = (Throw msg, w') ->
  created w' = 0%nat /\ uploaded w' = ∅ /\
  ((navigator_gpu b = false /\
    msg = "WebGPU not supported on this browser" /\ calls w' = []) \/
   (navigator_gpu b = true /\ adapter_found b = false /\
    msg = "No appropriate GPUAdapter found." /\ calls w' = [requestAdapter]) \/
   (navigator_gpu b = true /\ adapter_found b = true /\ context_found b = false /\
    msg = "Could not get canvas context" /\
    calls w' = [requestAdapter; requestDevice; getContext "webgpu"])).
Proof.
  cbv [main init acquire bind get call modify resize throw ret].
  cbn -[setup resized].
  destruct (navigator_gpu b); cbn -[setup resized];
    [|intros [= <- <-]; cbn; intuition].
  destruct (adapter_found b); cbn -[setup resized];
    [|intros [= <- <-]; cbn; intuition].
  destruct (context_found b); cbn -[setup resized];
    [|intros [= <- <-]; cbn; intuition].
  match goal with
  | |- setup _ _ ?fmt ?w1 = _ -> _ =>
      destruct (setup_run CS SS fmt w1) as (e' & w1' & cells & A & B & Hrun & Hset);
      rewrite Hrun; discriminate
  end.
Qed.

Lemma main_fuel CS SS b c w' : main CS SS (page b c) <> (OutOfFuel, w').
Proof.
  unfold not. cbv [main init acquire bind get call modify resize throw ret].
  cbn -[setup resized].
  destruct (navigator_gpu b); cbn -[setup resized]; [|discriminate].
  destruct (adapter_found b); cbn -[setup resized]; [|discriminate].
  destruct (context_found b); cbn -[setup resized]; [|discriminate].
  match goal with
  | |- setup _ _ ?fmt ?w1 = _ -> _ =>
      destruct (setup_run CS SS fmt w1) as (e' & w1' & cells & A & B & Hrun & Hset);
      rewrite Hrun; discriminate
  end.
Qed.

(** ** One tick *)

Lemma ticked_calls WORKGROUP_SIZE e cg rg w :
  calls (ticked WORKGROUP_SIZE e cg rg w) =
  (calls w ++ [ createCommandEncoder; getCurrentTexture;
                submit (frame WORKGROUP_SIZE e cg rg) ])%list.
Proof. cbn. now rewrite <- !app_assoc. Qed.

Lemma index_parity {A} (x0 x1 : A) s :
  0 <= s -> index [x0; x1] (Z.rem s 2) = ret (by_parity x0 x1 s).
Proof.
  intros Hs. rewrite Z.rem_mod_nonneg by lia. rewrite Zmod_even.
  unfold by_parity, index. now destruct (Z.even s).
Qed.

Lemma js_incr_nonneg n : 0 <= n -> 0 <= JS.js_incr n.
Proof. unfold JS.js_incr. destruct (n <? JS.MAX_EXACT); lia. Qed.

Section Ticking.

Variable WORKGROUP_SIZE : positive.
Variable e : Env.
Variables g0 g1 : GPUBindGroup.
Hypothesis Hgroups : bindGroups e = [g0; g1].

Lemma updateGrid_run w :
  0 <= step w ->
  updateGrid WORKGROUP_SIZE e w =
  (Return tt,
   ticked WORKGROUP_SIZE e (by_parity g0 g1 (step w))
     (by_parity g0 g1 (JS.js_incr (step w))) w).
Proof.
  intros Hs. unfold updateGrid. rewrite Hgroups.
  cbv [bind call modify get]. cbn [step with_call with_step].
  rewrite (index_parity g0 g1 (step w) Hs). cbv [ret]. cbn [step with_call with_step].
  rewrite (index_parity g0 g1 (JS.js_incr (step w)) (js_incr_nonneg _ Hs)).
  reflexivity.
Qed.

Variable w0 : World.
Hypothesis Hstep0 : step w0 = 0.

Lemma runs_step t w :
  runs WORKGROUP_SIZE e w0 t w -> step w = Z.min (Z.of_N t) JS.MAX_EXACT.
Proof.
  induction 1 as [|t w w' _ IH Htick|t w cw ch iw ih w' _ IH Hres].
  - rewrite Hstep0. reflexivity.
  - rewrite updateGrid_run in Htick by (rewrite IH; unfold JS.MAX_EXACT; lia).
    injection Htick as <-. cbn. rewrite IH. unfold JS.js_incr.
    destruct (Z.ltb_spec (Z.min (Z.of_N t) JS.MAX_EXACT) JS.MAX_EXACT); lia.
  - injection Hres as <-. exact IH.
Qed.

Lemma runs_step_nonneg t w : runs WORKGROUP_SIZE e w0 t w -> 0 <= step w.
Proof. intros H. rewrite (runs_step t w H). unfold JS.MAX_EXACT. lia. Qed.

(** Ticks and resizes only append tick calls to the log, and leave the
    uploads, the buffer count, the draws and the listeners alone. *)
Lemma runs_log t w :
  runs WORKGROUP_SIZE e w0 t w ->
  exists extra,
    calls w = (calls w0 ++ extra)%list /\
    forallb is_tick_call extra = true /\
    N.of_nat (length (submitted extra)) = t.
Proof.
  induction 1 as [|t w w' Hr (extra & Hc & Hf & Hn) Htick
                  |t w cw ch iw ih w' _ (extra & Hc & Hf & Hn) Hres].
  - exists []. now rewrite app_nil_r.
  - rewrite updateGrid_run in Htick by (eapply runs_step_nonneg; eauto).
    injection Htick as <-.
    eexists (extra ++ [createCommandEncoder; getCurrentTexture; submit _])%list.
    cbn. rewrite Hc, <- !app_assoc. split; [reflexivity|].
    rewrite forallb_app, Hf. split; [reflexivity|].
    unfold submitted in *. rewrite omap_app, length_app. cbn. lia.
  - injection Hres as <-. exists extra. cbn. auto.
Qed.

Lemma runs_keeps t w :
  runs WORKGROUP_SIZE e w0 t w ->
  uploaded w = uploaded w0 /\ created w = created w0 /\
  drawn w = drawn w0 /\ listeners w = listeners w0 /\
  width (canvas w) = width (canvas w0) /\ height (canvas w) = height (canvas w0).
Proof.
  induction 1 as [|t w w' Hr IH Htick|t w cw ch iw ih w' _ IH Hres].
  - repeat split.
  - rewrite updateGrid_run in Htick by (eapply runs_step_nonneg; eauto).
    injection Htick as <-. exact IH.
  - injection Hres as <-. exact IH.
Qed.

(** The timer can always fire once more. *)
Lemma runs_total t : exists w, runs WORKGROUP_SIZE e w0 t w.
Proof.
  induction t as [|t [w Hw]] using N.peano_ind.
  - exists w0. constructor.
  - eexists. eapply runs_tick; [exact Hw|].
    apply updateGrid_run. eapply runs_step_nonneg; eauto.
Qed.

End Ticking.

(** ** Evaluating the demo page

    [demo_start k] evaluates [main] on the demo page and passes the closure,
    the world and the equation to [k]; [demo_tick e w k] does the same for
    one call of [updateGrid] in [w]. *)
Ltac demo_start k :=
  let r := eval vm_compute in (main "" "" (page demo_browser demo_canvas)) in
  match r with
  | (Return ?e, ?w0) =>
      let de := fresh "e" in
      let dw := fresh "w" in
      let H := fresh "Hmain" in
      pose (de := e); pose (dw := w0);
      assert (H : main "" "" (page demo_browser demo_canvas) = (Return de, dw))
        by (vm_compute; reflexivity);
      k de dw H
  end.

Ltac demo_tick e w k :=
  let r := eval vm_compute in (updateGrid 8 e w) in
  match r with
  | (Return tt, ?w') =>
      let dw := fresh "w" in
      let H := fresh "Htick" in
      pose (dw := w');
      assert (H : updateGrid 8 e w = (Return tt, dw)) by (vm_compute; reflexivity);
      k dw H
  end.

(** ** The closure that [main] returns *)

Lemma main_groups CS SS b c e w0 :
  main CS SS (page b c) = (Return e, w0) ->
  exists A B,
    cellStateStorage e = [A; B] /\ buf_id A = 1%nat /\ buf_id B = 2%nat /\
    buf_id (uniformBuffer e) = 0%nat /\
    step w0 = 0 /\ GRID_SIZE e = 32 /\ vertices e = the_vertices /\
    bindGroups e =
      [ {| bg_label := "Cell renderer bind group A"; bg_layout := the_bindGroupLayout;
           bg_entries := [ {| binding := 0; resource := uniformBuffer e |};
                           {| binding := 1; resource := A |};
                           {| binding := 2; resource := B |} ] |};
        {| bg_label := "Cell renderer bind group B"; bg_layout := the_bindGroupLayout;
           bg_entries := [ {| binding := 0; resource := uniformBuffer e |};
                           {| binding := 1; resource := B |};
                           {| binding := 2; resource := A |} ] |} ].
Proof.
  intros H. apply main_Return in H
    as (_ & _ & _ & w1 & cells & A & B & _ & _ & _ & _ & _ & Hc & _ & Hset).
  exists A, B. destruct Hset. rewrite Hc in *.
  repeat split; try assumption.
  - now subst A.
  - now subst B.
  - now rewrite su_uniformBuffer0.
Qed.

Lemma parity_cases (t : N) :
  ((t mod 2 = 0 /\ (t + 1) mod 2 = 1)%N /\
   Z.even (Z.of_N t) = true /\ Z.even (Z.of_N t + 1) = false) \/
  ((t mod 2 = 1 /\ (t + 1) mod 2 = 0)%N /\
   Z.even (Z.of_N t) = false /\ Z.even (Z.of_N t + 1) = true).
Proof.
  rewrite Z.even_add. cbn [Z.even].
  destruct (Z.even (Z.of_N t)) eqn:Hev; [left|right]; cbn.
  - apply Z.even_spec in Hev as [k Hk]. split; [|auto]. arith.
  - apply (f_equal negb) in Hev. rewrite Z.negb_even in Hev. cbn in Hev.
    apply Z.odd_spec in Hev as [k Hk]. split; [|auto]. arith.
Qed.

(** ** C1: the ping-pong invariant *)

(** C1, amended. For every tick [t] below [2^53] (the first [2^53] calls of
    [updateGrid], with any resize events in between): the tick succeeds and
    submits one command buffer, in which the compute pass binds
    [bindGroups[t % 2]], reading [cellStateStorage[t % 2]] and writing
    [cellStateStorage[(t+1) % 2]], and the render pass binds
    [bindGroups[(t+1) % 2]], whose binding 1, the storage that the vertex
    stage reads, is exactly the buffer that the compute pass writes. *)
Theorem ping_pong_below_2_53 CS SS WORKGROUP_SIZE b c e w0 (t : N) w :
  main CS SS (page b c) = (Return e, w0) ->
  runs WORKGROUP_SIZE e w0 t w ->
  (t < 2 ^ 53)%N ->
  exists cb cg rg src dst w',
    updateGrid WORKGROUP_SIZE e w = (Return tt, w') /\
    calls w' = (calls w ++ [createCommandEncoder; getCurrentTexture; submit cb])%list /\
    flat_map pass_bindGroups (compute_passes cb) = [cg] /\
    flat_map pass_bindGroups (render_passes cb) = [rg] /\
    bindGroups e !! N.to_nat (t mod 2) = Some cg /\
    bindGroups e !! N.to_nat ((t + 1) mod 2) = Some rg /\
    cellStateStorage e !! N.to_nat (t mod 2) = Some src /\
    cellStateStorage e !! N.to_nat ((t + 1) mod 2) = Some dst /\
    bound_as read_only_storage GPUShaderStage.COMPUTE cg = [src] /\
    written_by_compute cb = [dst] /\
    bound_at rg 1 = [dst] /\
    read_by_render cb = [dst].
Proof.
  intros Hmain Hruns Ht.
  destruct (main_groups _ _ _ _ _ _ Hmain)
    as (A & B & Hst & _ & _ & _ & Hs0 & _ & _ & Hbg).
  pose proof (runs_step _ _ _ _ Hbg _ Hs0 _ _ Hruns) as Hstep.
  assert (Hstep' : step w = Z.of_N t) by (unfold JS.MAX_EXACT in Hstep; lia).
  assert (Hincr : JS.js_incr (step w) = Z.of_N t + 1).
  { unfold JS.js_incr, JS.MAX_EXACT. rewrite Hstep'.
    destruct (Z.ltb_spec (Z.of_N t) (2 ^ 53)); lia. }
  pose proof (updateGrid_run WORKGROUP_SIZE _ _ _ Hbg w) as Hrun.
  rewrite Hincr, Hstep' in Hrun. specialize (Hrun ltac:(lia)).
  rewrite Hst, Hbg.
  destruct (parity_cases t) as [((-> & ->) & He & He')|((-> & ->) & He & He')];
    unfold by_parity in Hrun; rewrite He, He' in Hrun;
    do 6 eexists; (split; [exact Hrun|]); (split; [apply ticked_calls|]);
    repeat split; reflexivity.
Qed.

(** The second tick of the demo page. *)
Lemma ping_pong_below_2_53_witness :
  exists e w0 w w',
    main "" "" (page demo_browser demo_canvas) = (Return e, w0) /\
    runs 8 e w0 1 w /\
    updateGrid 8 e w = (Return tt, w').
Proof.
  demo_start ltac:(fun e w0 Hmain =>
    demo_tick e w0 ltac:(fun w Htick =>
      exists e, w0, w;
      pose proof (runs_tick 8 e w0 0 w0 w (runs_start 8 e w0) Htick) as Hruns;
      destruct (ping_pong_below_2_53 _ _ _ _ _ _ _ _ _ Hmain Hruns eq_refl)
        as (cb & cg & rg & src & dst & w' & Hrun & _);
      exists w'; auto)).
Defined.

(** C1 as stated fails at tick [2^53]: the counter has stopped at [2^53],
    so both passes bind [bindGroups[0]]; the compute pass writes
    [cellStateStorage[1]] and the render pass reads [cellStateStorage[0]]. *)
Lemma ping_pong_fails_at_2_53 :
  exists e w0 w w' cb A B,
    main "" "" (page demo_browser demo_canvas) = (Return e, w0) /\
    runs 8 e w0 (2 ^ 53) w /\
    updateGrid 8 e w = (Return tt, w') /\
    calls w' = (calls w ++ [createCommandEncoder; getCurrentTexture; submit cb])%list /\
    cellStateStorage e = [A; B] /\ A <> B /\
    written_by_compute cb = [B] /\
    read_by_render cb = [A] /\
    read_by_render cb <> written_by_compute cb.
Proof.
  destruct (main_total "" "" demo_browser demo_canvas eq_refl eq_refl eq_refl)
    as (e & w0 & Hmain).
  destruct (main_groups _ _ _ _ _ _ Hmain)
    as (A & B & Hst & HA & HB & _ & Hs0 & _ & _ & Hbg).
  destruct (runs_total 8 _ _ _ Hbg _ Hs0 (2 ^ 53)) as (w & Hruns).
  pose proof (runs_step _ _ _ _ Hbg _ Hs0 _ _ Hruns) as Hstep.
  change (Z.min (Z.of_N (2 ^ 53)) JS.MAX_EXACT) with (2 ^ 53) in Hstep.
  pose proof (updateGrid_run 8 _ _ _ Hbg w) as Hrun.
  rewrite Hstep in Hrun. specialize (Hrun ltac:(lia)).
  assert (HAB : A <> B) by (intros ->; congruence).
  do 5 eexists. exists A, B.
  split; [exact Hmain|]. split; [exact Hruns|]. split; [exact Hrun|].
  split; [apply ticked_calls|]. split; [exact Hst|]. split; [exact HAB|].
  split; [reflexivity|]. split; [reflexivity|].
  cbn. intros [= H]. now apply HAB.
Qed.

(** ** What the ticks add to the log *)

Lemma tick_calls_create_nothing (extra : list Call) :
  forallb is_tick_call extra = true ->
  created_bindGroups extra = [] /\
  filter (fun c => is_createBuffer c = true) extra = [] /\
  forall b, uploads_to b extra = [].
Proof.
  induction extra as [|c extra IH]; [easy|].
  cbn [forallb]. intros [Hc Hf]%andb_prop. destruct (IH Hf) as (IH1 & IH2 & IH3).
  destruct c; try discriminate Hc; repeat split; try intros b0;
    rewrite ?filter_cons; cbn; auto; apply IH3.
Qed.

(** ** The seeded array and its two uploads *)

Lemma main_cells CS SS b c e w0 :
  main CS SS (page b c) = (Return e, w0) ->
  exists A B (cells : list Z),
    cellStateStorage e = [A; B] /\ buf_id A <> buf_id B /\
    uploads_to A (calls w0) = [Uint32Array cells] /\
    uploads_to B (calls w0) = [Uint32Array cells] /\
    uploaded w0 !! buf_id A = Some (Uint32Array cells) /\
    uploaded w0 !! buf_id B = Some (Uint32Array cells) /\
    submitted (calls w0) = [] /\
    created_bindGroups (calls w0) = bindGroups e /\
    length cells = 1024%nat /\
    forall j : nat,
      cells !! j =
      if decide ((j < 1024)%nat /\ (j mod 3 = 0)%nat)
      then Some (seed_cell (Math_random b (j / 3)%nat))
      else if decide (j < 1024)%nat then Some 0 else None.
Proof.
  intros H. apply main_Return in H
    as (_ & _ & _ & w1 & cells & A & B & Hcalls & Hb & _ & _ & Hup & Hc & Hd & Hset).
  exists A, B, cells. destruct Hset.
  rewrite Hc in *. rewrite Hb, Hd in su_cells0. rewrite Hcalls in su_calls0.
  rewrite su_calls0, su_uploaded0, su_bindGroups0, su_vertexBuffer0, su_uniformBuffer0.
  subst A B. cbn -[the_vertices the_bindGroupLayout Z2float insert lookup].
  repeat split; try reflexivity; try assumption.
  - lia.
  - rewrite lookup_insert_ne, lookup_insert_ne, lookup_insert_eq by lia. reflexivity.
  - rewrite lookup_insert_ne, lookup_insert_eq by lia. reflexivity.
Qed.

(** ** C2: the two bind groups *)

(** C2. When [main] has returned and after any number of ticks and resize
    events: the log holds exactly two [createBindGroup] calls, those of
    [init]; bind group 0 binds the uniform buffer at 0, [cellStateStorage[0]]
    at 1 and [cellStateStorage[1]] at 2; bind group 1 binds the same uniform
    buffer and the two state buffers the other way round; the next tick
    succeeds, creates no bind group, and binds [bindGroups[step % 2]] in its
    compute pass and, with the incremented [step], in its render pass.
    In the layout of both groups binding 0 is the uniform buffer, binding 1
    is read-only storage and binding 2 is writable storage, seen by the
    compute stage only: so bind group 0 reads [cellStateStorage[0]] and
    writes [cellStateStorage[1]], bind group 1 reads [cellStateStorage[1]]
    and writes [cellStateStorage[0]], and the two state buffers are
    distinct. *)
Theorem two_bind_groups_selected_by_parity CS SS WORKGROUP_SIZE b c e w0 (t : N) w :
  main CS SS (page b c) = (Return e, w0) ->
  runs WORKGROUP_SIZE e w0 t w ->
  exists A B cb cg rg w',
    cellStateStorage e = [A; B] /\
    bindGroups e =
      [ {| bg_label := "Cell renderer bind group A"; bg_layout := bindGroupLayout e;
           bg_entries := [ {| binding := 0; resource := uniformBuffer e |};
                           {| binding := 1; resource := A |};
                           {| binding := 2; resource := B |} ] |};
        {| bg_label := "Cell renderer bind group B"; bg_layout := bindGroupLayout e;
           bg_entries := [ {| binding := 0; resource := uniformBuffer e |};
                           {| binding := 1; resource := B |};
                           {| binding := 2; resource := A |} ] |} ] /\
    created_bindGroups (calls w0) = bindGroups e /\
    created_bindGroups (calls w) = bindGroups e /\
    updateGrid WORKGROUP_SIZE e w = (Return tt, w') /\
    calls w' = (calls w ++ [createCommandEncoder; getCurrentTexture; submit cb])%list /\
    created_bindGroups (calls w') = bindGroups e /\
    flat_map pass_bindGroups (compute_passes cb) = [cg] /\
    flat_map pass_bindGroups (render_passes cb) = [rg] /\
    bindGroups e !! Z.to_nat (Z.rem (step w) 2) = Some cg /\
    bindGroups e !! Z.to_nat (Z.rem (step w') 2) = Some rg /\
    bgl_entries (bindGroupLayout e) =
      [ {| le_binding := 0;
           le_visibility := Z.lor (Z.lor GPUShaderStage.FRAGMENT GPUShaderStage.COMPUTE)
                                  GPUShaderStage.VERTEX;
           le_type := uniform |};
        {| le_binding := 1;
           le_visibility := Z.lor GPUShaderStage.COMPUTE GPUShaderStage.VERTEX;
           le_type := read_only_storage |};
        {| le_binding := 2;
           le_visibility := GPUShaderStage.COMPUTE;
           le_type := storage |} ] /\
    A <> B /\
    Forall2 (fun g rw =>
               bound_as uniform GPUShaderStage.COMPUTE g = [uniformBuffer e] /\
               bound_as read_only_storage GPUShaderStage.COMPUTE g = [rw.1] /\
               bound_as storage GPUShaderStage.COMPUTE g = [rw.2] /\
               bound_as read_only_storage
                 (Z.lor GPUShaderStage.VERTEX GPUShaderStage.FRAGMENT) g = [rw.1] /\
               bound_as storage
                 (Z.lor GPUShaderStage.VERTEX GPUShaderStage.FRAGMENT) g = [])
            (bindGroups e) [(A, B); (B, A)].
Proof.
  intros Hmain Hruns.
  destruct (main_groups _ _ _ _ _ _ Hmain)
    as (A & B & Hst & HidA & HidB & _ & Hs0 & _ & _ & Hbg).
  destruct (main_cells _ _ _ _ _ _ Hmain)
    as (A' & B' & cells & Hst' & _ & _ & _ & _ & _ & _ & Hcreated & _).
  assert (Hlayout : bindGroupLayout e = the_bindGroupLayout).
  { apply main_Return in Hmain as (_ & _ & _ & w1 & cs & A1 & B1 & Hrest).
    apply Hrest. }
  destruct (runs_log _ _ _ _ Hbg _ Hs0 _ _ Hruns) as (extra & Hcalls & Hextra & _).
  destruct (tick_calls_create_nothing extra Hextra) as (Hnone & _).
  assert (Hw : created_bindGroups (calls w) = bindGroups e).
  { rewrite Hcalls. unfold created_bindGroups in *.
    rewrite omap_app, Hcreated, Hnone. apply app_nil_r. }
  pose proof (runs_step_nonneg _ _ _ _ Hbg _ Hs0 _ _ Hruns) as Hnn.
  pose proof (updateGrid_run WORKGROUP_SIZE _ _ _ Hbg w Hnn) as Hrun.
  exists A, B. do 4 eexists.
  split; [exact Hst|]. split; [rewrite Hlayout; exact Hbg|].
  split; [exact Hcreated|]. split; [exact Hw|].
  split; [exact Hrun|]. split; [apply ticked_calls|].
  split.
  { rewrite ticked_calls. unfold created_bindGroups in *.
    rewrite omap_app, Hw. apply app_nil_r. }
  split; [reflexivity|]. split; [reflexivity|].
  cbn [step ticked with_call with_step].
  rewrite !Z.rem_mod_nonneg, !Zmod_even by (auto using js_incr_nonneg; lia).
  rewrite Hbg, Hlayout. unfold by_parity.
  split; [destruct (Z.even (step w)); reflexivity|].
  split; [destruct (Z.even (JS.js_incr (step w))); reflexivity|].
  split; [reflexivity|].
  split; [intros ->; congruence|].
  repeat (apply Forall2_cons_2 || apply Forall2_nil_2); repeat split.
Qed.

(** The demo page after one tick. *)
Lemma two_bind_groups_selected_by_parity_witness :
  exists e w0 w w',
    main "" "" (page demo_browser demo_canvas) = (Return e, w0) /\
    runs 8 e w0 1 w /\
    updateGrid 8 e w = (Return tt, w') /\
    created_bindGroups (calls w') = bindGroups e /\
    le_type <$> bgl_entries (bindGroupLayout e) = [uniform; read_only_storage; storage].
Proof.
  demo_start ltac:(fun e w0 Hmain =>
    demo_tick e w0 ltac:(fun w Htick =>
      exists e, w0, w;
      pose proof (runs_tick 8 e w0 0 w0 w (runs_start 8 e w0) Htick) as Hruns;
      destruct (two_bind_groups_selected_by_parity _ _ _ _ _ _ _ _ _ Hmain Hruns)
        as (A & B & cb & cg & rg & w' & _ & _ & _ & _ & Hrun & _ & Hcr & _ & _
            & _ & _ & Hlay & _);
      exists w'; rewrite Hlay; auto)).
Defined.

(** ** C3: both state buffers start from the same array *)

(** C3. When [main] has returned, whatever the random source drew: no tick
    has been submitted yet, the two state buffers are distinct, each has
    received exactly one upload, and the two uploads carry the same array;
    it is what the host has last written to either buffer. *)
Theorem both_buffers_seeded_alike CS SS b c e w0 :
  main CS SS (page b c) = (Return e, w0) ->
  exists A B (cells : list Z),
    cellStateStorage e = [A; B] /\ buf_id A <> buf_id B /\
    submitted (calls w0) = [] /\
    uploads_to A (calls w0) = [Uint32Array cells] /\
    uploads_to B (calls w0) = [Uint32Array cells] /\
    uploaded w0 !! buf_id A = Some (Uint32Array cells) /\
    uploaded w0 !! buf_id B = Some (Uint32Array cells).
Proof.
  intros Hmain.
  destruct (main_cells _ _ _ _ _ _ Hmain)
    as (A & B & cells & Hst & Hne & HuA & HuB & HA & HB & Hsub & _).
  exists A, B, cells. auto 10.
Qed.

Lemma both_buffers_seeded_alike_witness :
  exists e w0 A B,
    main "" "" (page demo_browser demo_canvas) = (Return e, w0) /\
    cellStateStorage e = [A; B] /\
    uploaded w0 !! buf_id A = uploaded w0 !! buf_id B.
Proof.
  demo_start ltac:(fun e w0 Hmain =>
    destruct (both_buffers_seeded_alike _ _ _ _ _ _ Hmain)
      as (A & B & cells & Hst & _ & _ & _ & _ & HA & HB);
    exists e, w0, A, B; rewrite HA, HB; auto).
Defined.

(** ** C4: only every third cell is drawn *)



(** ** C9: the initial cells are 0 or 1 *)

Lemma seed_cell_range r : seed_cell r = 0 \/ seed_cell r = 1.
Proof. unfold seed_cell. destruct (JS.Qgtb r JS.lit_0_4); auto. Qed.

(** C9. When [main] has returned, every value of the array uploaded to
    the two state buffers is [0] or [1]. *)
Theorem initial_cells_are_0_or_1 CS SS b c e w0 :
  main CS SS (page b c) = (Return e, w0) ->
  exists A B (cells : list Z),
    cellStateStorage e = [A; B] /\
    uploaded w0 !! buf_id A = Some (Uint32Array cells) /\
    uploaded w0 !! buf_id B = Some (Uint32Array cells) /\
    Forall (fun v => v = 0 \/ v = 1) cells.
Proof.
  intros Hmain.
  destruct (main_cells _ _ _ _ _ _ Hmain)
    as (A & B & cells & Hst & _ & _ & _ & HA & HB & _ & _ & Hlen & Hget).
  exists A, B, cells. repeat split; try assumption.
  apply Forall_lookup. intros i v. rewrite Hget.
  repeat case_decide; intros [= <-]; auto using seed_cell_range.
Qed.

Lemma initial_cells_are_0_or_1_witness :
  exists e w0 A (cells : list Z),
    main "" "" (page demo_browser demo_canvas) = (Return e, w0) /\
    uploaded w0 !! buf_id A = Some (Uint32Array cells) /\
    Forall (fun v => v = 0 \/ v = 1) cells.
Proof.
  demo_start ltac:(fun e w0 Hmain =>
    destruct (initial_cells_are_0_or_1 _ _ _ _ _ _ Hmain)
      as (A & B & cells & _ & HA & _ & Hall);
    exists e, w0, A, cells; auto).
Defined.

(** ** C5: the dispatch *)

Lemma ceil_div_spec a b :
  (JS.ceil_div a b - 1) * Z.pos b < a <= JS.ceil_div a b * Z.pos b.
Proof.
  unfold JS.ceil_div, Qceiling, Qfloor. cbn [Qopp Qnum Qden].
  Z.to_euclidean_division_equations. nia.
Qed.

(** C5. When [main] has returned, every tick submits one compute pass
    with one dispatch, whose two dimensions are the same number [n], the
    ceiling of [GRID_SIZE / WORKGROUP_SIZE]: the least integer with
    [GRID_SIZE <= n * WORKGROUP_SIZE], for [GRID_SIZE = 32]. *)
Theorem dispatch_is_square CS SS WORKGROUP_SIZE b c e w0 (t : N) w :
  main CS SS (page b c) = (Return e, w0) ->
  runs WORKGROUP_SIZE e w0 t w ->
  exists cb n w',
    updateGrid WORKGROUP_SIZE e w = (Return tt, w') /\
    calls w' = (calls w ++ [createCommandEncoder; getCurrentTexture; submit cb])%list /\
    length (compute_passes cb) = 1%nat /\
    flat_map pass_dispatches (compute_passes cb) = [(n, n)] /\
    n = Qceiling (GRID_SIZE e # WORKGROUP_SIZE) /\
    GRID_SIZE e = 32 /\
    (n - 1) * Z.pos WORKGROUP_SIZE < 32 <= n * Z.pos WORKGROUP_SIZE.
Proof.
  intros Hmain Hruns.
  destruct (main_groups _ _ _ _ _ _ Hmain)
    as (A & B & _ & _ & _ & _ & Hs0 & HG & _ & Hbg).
  pose proof (runs_step_nonneg _ _ _ _ Hbg _ Hs0 _ _ Hruns) as Hnn.
  pose proof (updateGrid_run WORKGROUP_SIZE _ _ _ Hbg w Hnn) as Hrun.
  do 3 eexists.
  split; [exact Hrun|]. split; [apply ticked_calls|].
  split; [reflexivity|]. split; [reflexivity|]. split; [reflexivity|].
  split; [exact HG|]. rewrite HG. apply ceil_div_spec.
Qed.

(** With workgroups of 8 by 8 the demo page dispatches 4 by 4 of them. *)
Lemma dispatch_is_square_witness :
  exists e w0 cb w',
    main "" "" (page demo_browser demo_canvas) = (Return e, w0) /\
    updateGrid 8 e w0 = (Return tt, w') /\
    calls w' = (calls w0 ++ [createCommandEncoder; getCurrentTexture; submit cb])%list /\
    flat_map pass_dispatches (compute_passes cb) = [(4, 4)].
Proof.
  demo_start ltac:(fun e w0 Hmain =>
    destruct (dispatch_is_square _ _ 8%positive _ _ _ _ _ _ Hmain (runs_start 8 e w0))
      as (cb & n & w' & Hrun & Hcalls & _ & Hd & Hn & HG & _);
    exists e, w0, cb, w';
    rewrite HG in Hn; vm_compute in Hn; rewrite Hn in Hd; auto).
Defined.

(** ** C6: the draw *)

(** C6. When [main] has returned, every tick submits one render pass with
    one draw call, of [vertices.length / 2 = 6] vertices (the vertex array
    has 12 elements) and [GRID_SIZE * GRID_SIZE = 1024] instances: 6144
    vertices. *)
Theorem one_draw_of_6144_vertices CS SS WORKGROUP_SIZE b c e w0 (t : N) w :
  main CS SS (page b c) = (Return e, w0) ->
  runs WORKGROUP_SIZE e w0 t w ->
  exists cb vertexCount instanceCount w',
    updateGrid WORKGROUP_SIZE e w = (Return tt, w') /\
    calls w' = (calls w ++ [createCommandEncoder; getCurrentTexture; submit cb])%list /\
    length (render_passes cb) = 1%nat /\
    flat_map pass_draws (render_passes cb) = [(vertexCount, instanceCount)] /\
    length (vertices e) = 12%nat /\
    vertexCount = 6 /\
    instanceCount = GRID_SIZE e * GRID_SIZE e /\
    instanceCount = 1024 /\
    vertexCount * instanceCount = 6144.
Proof.
  intros Hmain Hruns.
  destruct (main_groups _ _ _ _ _ _ Hmain)
    as (A & B & _ & _ & _ & _ & Hs0 & HG & Hv & Hbg).
  pose proof (runs_step_nonneg _ _ _ _ Hbg _ Hs0 _ _ Hruns) as Hnn.
  pose proof (updateGrid_run WORKGROUP_SIZE _ _ _ Hbg w Hnn) as Hrun.
  do 4 eexists.
  split; [exact Hrun|]. split; [apply ticked_calls|].
  split; [reflexivity|]. split; [reflexivity|].
  rewrite Hv, HG. repeat split.
Qed.

Lemma one_draw_of_6144_vertices_witness :
  exists e w0 cb w',
    main "" "" (page demo_browser demo_canvas) = (Return e, w0) /\
    updateGrid 8 e w0 = (Return tt, w') /\
    calls w' = (calls w0 ++ [createCommandEncoder; getCurrentTexture; submit cb])%list /\
    flat_map pass_draws (render_passes cb) = [(6, 1024)].
Proof.
  demo_start ltac:(fun e w0 Hmain =>
    destruct (one_draw_of_6144_vertices _ _ 8%positive _ _ _ _ _ _ Hmain
                (runs_start 8 e w0))
      as (cb & v & i & w' & Hrun & Hcalls & _ & Hd & _ & -> & _ & -> & _);
    exists e, w0, cb, w'; auto).
Defined.

(** ** C7: the failures of [init] *)

(** C7. When the browser lacks [navigator.gpu], or yields no adapter, or
    yields no canvas context, [main] throws the error of the first check
    that fails, and at that point the log holds no [createBuffer] and no
    [setInterval] call: no buffer exists and nothing has been uploaded. *)
Theorem startup_failures_create_no_buffer CS SS b c :
  navigator_gpu b && adapter_found b && context_found b = false ->
  exists msg w',
    main CS SS (page b c) = (Throw msg, w') /\
    msg = (if negb (navigator_gpu b) then "WebGPU not supported on this browser"
           else if negb (adapter_found b) then "No appropriate GPUAdapter found."
           else "Could not get canvas context") /\
    filter (fun c => is_createBuffer c = true) (calls w') = [] /\
    filter (fun c => is_setInterval c = true) (calls w') = [] /\
    created w' = 0%nat /\ uploaded w' = ∅.
Proof.
  intros Hmissing.
  cbv [main init acquire bind get call modify resize throw ret].
  cbn -[setup resized].
  destruct (navigator_gpu b); cbn -[setup resized];
    [|do 2 eexists; repeat split].
  destruct (adapter_found b); cbn -[setup resized];
    [|do 2 eexists; repeat split].
  destruct (context_found b); cbn -[setup resized];
    [discriminate Hmissing|do 2 eexists; repeat split].
Qed.

Lemma startup_failures_create_no_buffer_witness :
  exists w',
    main "" "" (page old_browser demo_canvas) =
      (Throw "WebGPU not supported on this browser", w') /\
    calls w' = [].
Proof.
  destruct (startup_failures_create_no_buffer "" "" old_browser demo_canvas eq_refl)
    as (msg & w' & Hmain & -> & _).
  exists w'. split; [exact Hmain|].
  vm_compute in Hmain. now injection Hmain as <-.
Defined.

(** ** C10: [resize] *)

(** C10. [resize] returns, and changes nothing but six properties of the
    canvas's inline style: the [width] and [height] attributes of the
    canvas, every other style property, the log of GPU calls, the uploads,
    the counter [step] and the rest of the world are as before. *)
Theorem resize_changes_six_style_properties_only (w : World) :
  exists w',
    resize w = (Return tt, w') /\
    width (canvas w') = width (canvas w) /\
    height (canvas w') = height (canvas w) /\
    (forall p : string,
        p ∉ ["width"; "height"; "marginLeft"; "marginRight";
             "marginTop"; "marginBottom"] ->
        style (canvas w') !! p = style (canvas w) !! p) /\
    browser w' = browser w /\ listeners w' = listeners w /\
    calls w' = calls w /\ uploaded w' = uploaded w /\
    created w' = created w /\ drawn w' = drawn w /\ step w' = step w.
Proof.
  eexists. split; [reflexivity|]. cbn -[insert lookup].
  repeat split. intros p Hp.
  rewrite !not_elem_of_cons in Hp.
  destruct Hp as (? & ? & ? & ? & ? & ? & _).
  now rewrite !lookup_insert_ne by congruence.
Qed.

(** ** C8: the threshold, as a probability *)

Lemma Qgtb_spec a b : JS.Qgtb a b = true <-> (b < a)%Q.
Proof.
  unfold JS.Qgtb. rewrite negb_true_iff, <- not_true_iff_false, Qle_bool_iff.
  split; [apply Qnot_le_lt | apply Qlt_not_le].
Qed.

Lemma seed_cell_alive r : seed_cell r = 1 <-> (JS.lit_0_4 < r)%Q.
Proof.
  rewrite <- Qgtb_spec. unfold seed_cell.
  destruct (JS.Qgtb r JS.lit_0_4); easy.
Qed.

Lemma seed_cell_dead r : seed_cell r = 0 <-> (r <= JS.lit_0_4)%Q.
Proof.
  unfold seed_cell, JS.Qgtb. rewrite <- Qle_bool_iff.
  destruct (Qle_bool r JS.lit_0_4); easy.
Qed.

Lemma length_filter_fmap {A B} (f : A -> B) (P : B -> Prop)
    `{forall y, Decision (P y)} (l : list A) :
  length (filter P (f <$> l)) = length (filter (fun x => P (f x)) l).
Proof.
  induction l as [|x l IH]; [reflexivity|].
  rewrite fmap_cons, !filter_cons. destruct (decide (P (f x))); cbn; now rewrite IH.
Qed.

Lemma length_filter_prefix (P : nat -> Prop) `{forall k, Decision (P k)} (m n : nat) :
  (forall k, (k < n)%nat -> P k <-> (k <= m)%nat) ->
  length (filter P (seq 0 n)) = (n `min` S m)%nat.
Proof.
  induction n as [|n IH]; intros HP; [reflexivity|].
  rewrite seq_S, filter_app, length_app, IH by (intros; apply HP; lia).
  cbn [Nat.add]. rewrite filter_cons, filter_nil.
  destruct (decide (P n)) as [Hn|Hn]; rewrite HP in Hn by lia; cbn; lia.
Qed.

Lemma count_dead_formula (n : positive) :
  Z.of_nat (count_dead n) = Qfloor (JS.lit_0_4 * inject_Z (Z.pos n)) + 1.
Proof.
  unfold count_dead, draws. rewrite length_filter_fmap.
  set (m := Z.to_nat (3602879701896397 * Z.pos n / 9007199254740992)).
  rewrite (length_filter_prefix _ m).
  - unfold Qfloor, JS.lit_0_4, Qmult, inject_Z. cbn [Qnum Qden].
    rewrite Pos.mul_1_r. subst m. arith.
  - intros k Hk. rewrite seed_cell_dead. unfold Qle, JS.lit_0_4. cbn [Qnum Qden].
    subst m. arith.
Qed.

Lemma alive_or_dead (l : list Q) :
  (length (filter (fun r => seed_cell r = 1%Z) l) +
   length (filter (fun r => seed_cell r = 0%Z) l) = length l)%nat.
Proof.
  induction l as [|r l IH]; [reflexivity|].
  rewrite !filter_cons. destruct (seed_cell_range r) as [Hr|Hr]; rewrite Hr.
  - rewrite decide_False, decide_True by easy. cbn [length]. lia.
  - rewrite decide_True, decide_False by easy. cbn [length]. lia.
Qed.

Lemma count_alive_dead (n : positive) :
  (count_alive n + count_dead n = Pos.to_nat n)%nat.
Proof.
  unfold count_alive, count_dead. rewrite alive_or_dead.
  unfold draws. now rewrite length_fmap, length_seq.
Qed.

(** C8, amended. When [main] has returned, the cell at each seeded index
    [3 * k] is alive exactly when its draw [r] is above the threshold, the
    binary64 of [0.4], and dead exactly when [r] is at most the threshold:
    alive on the part of [0,1) of measure about 0.6, dead on the part of
    measure about 0.4. Among [n] equally likely draws [0/n, ..., (n-1)/n],
    [floor (0.4 n) + 1] leave the cell dead and the others make it alive. *)
Theorem seeded_cell_alive_above_threshold CS SS b c e w0 :
  main CS SS (page b c) = (Return e, w0) ->
  exists A B (cells : list Z),
    cellStateStorage e = [A; B] /\
    uploaded w0 !! buf_id A = Some (Uint32Array cells) /\
    uploaded w0 !! buf_id B = Some (Uint32Array cells) /\
    (forall k : nat, (3 * k < 1024)%nat ->
       (cells !! (3 * k)%nat = Some 1 <-> (JS.lit_0_4 < Math_random b k)%Q) /\
       (cells !! (3 * k)%nat = Some 0 <-> (Math_random b k <= JS.lit_0_4)%Q)) /\
    ((4 # 10) < JS.lit_0_4 /\ JS.lit_0_4 < (4 # 10) + (1 # 1000000000000000))%Q /\
    (forall n : positive,
       Z.of_nat (count_dead n) = Qfloor (JS.lit_0_4 * inject_Z (Z.pos n)) + 1 /\
       (count_alive n + count_dead n = Pos.to_nat n)%nat).
Proof.
  intros Hmain.
  destruct (main_cells _ _ _ _ _ _ Hmain)
    as (A & B & cells & Hst & _ & _ & _ & HA & HB & _ & _ & Hlen & Hget).
  exists A, B, cells.
  split; [exact Hst|]. split; [exact HA|]. split; [exact HB|].
  split; [|split; [split; reflexivity|]].
  - intros k Hk. rewrite Hget.
    rewrite decide_True by (split; [lia | arith]).
    replace (3 * k / 3)%nat with k by arith.
    rewrite <- seed_cell_alive, <- seed_cell_dead.
    split; (split; [now intros [= ->] | now intros ->]).
  - intros n. split; [apply count_dead_formula | apply count_alive_dead].
Qed.

Lemma seeded_cell_alive_above_threshold_witness :
  exists e w0 A (cells : list Z),
    main "" "" (page demo_browser demo_canvas) = (Return e, w0) /\
    uploaded w0 !! buf_id A = Some (Uint32Array cells) /\
    cells !! 15%nat = Some 1 /\
    count_dead 10 = 5%nat /\ count_alive 10 = 5%nat.
Proof.
  demo_start ltac:(fun e w0 Hmain =>
    destruct (seeded_cell_alive_above_threshold _ _ _ _ _ _ Hmain)
      as (A & B & cells & _ & HA & _ & Hcell & _ & Hcount);
    exists e, w0, A, cells;
    split; [exact Hmain|]; split; [exact HA|];
    split; [apply (Hcell 5%nat); vm_compute; [lia | reflexivity]|];
    vm_compute; auto).
Defined.

(** C8 as stated fails: of the 1000 equally likely draws [k/1000], 401
    leave the cell dead and 599 make it alive; the dead share is about 40%,
    not about 60%, and the draw [1/2], below the sixtieth percentile, gives
    a live cell. *)
Lemma dead_share_is_not_60_percent :
  count_dead 1000 = 401%nat /\ count_alive 1000 = 599%nat /\
  seed_cell (1 # 2) = 1 /\
  ~ spec_dead_share 1000.
Proof.
  assert (Hd : count_dead 1000 = 401%nat) by (vm_compute; reflexivity).
  split; [exact Hd|]. split; [vm_compute; reflexivity|].
  split; [reflexivity|].
  unfold spec_dead_share. rewrite Hd. lia.
Qed.

(** * Further properties of the program *)

(** ** The seeding loop on any array *)

Lemma with_drawn_same w : with_drawn (drawn w) w = w.
Proof. now destruct w. Qed.

Lemma seed_loop_draws fuel :
  forall i (arr : list Z) w,
    (length arr <= i + 3 * fuel)%nat ->
    exists arr' : list Z,
      seed_loop fuel i arr w =
      (Return arr', with_drawn (drawn w + (length arr + 2 - i) / 3)%nat w).
Proof.
  induction fuel as [|fuel IH]; intros i arr w Hfuel; cbn [seed_loop].
  - destruct (Nat.ltb_spec i (length arr)); [lia|].
    exists arr. replace ((length arr + 2 - i) / 3)%nat with 0%nat by arith.
    now rewrite Nat.add_0_r, with_drawn_same.
  - destruct (Nat.ltb_spec i (length arr)) as [Hi|Hi].
    + set (r := Math_random (browser w) (drawn w)).
      destruct (IH (i + 3)%nat (<[i := seed_cell r]> arr) (with_drawn (S (drawn w)) w))
        as (arr' & Hrun).
      { rewrite length_insert. lia. }
      exists arr'. rewrite length_insert in Hrun.
      cbn [drawn with_drawn] in Hrun.
      replace (drawn w + (length arr + 2 - i) / 3)%nat
        with (S (drawn w) + (length arr + 2 - (i + 3)) / 3)%nat by arith.
      exact Hrun.
    + exists arr. replace ((length arr + 2 - i) / 3)%nat with 0%nat by arith.
      now rewrite Nat.add_0_r, with_drawn_same.
Qed.

(** X1. On any array and in any world, the seeding loop ends; it keeps the
    length, leaves every cell whose index is not a multiple of 3 as it was,
    sets the cell at each multiple of 3 from the next draw in order, and has
    drawn [ceil (length / 3)] numbers; nothing else in the world changes.
    On the empty array it draws nothing. *)
Theorem seed_on_any_array (arr : list Z) (w : World) :
  exists arr' : list Z,
    seed arr w = (Return arr', with_drawn (drawn w + (length arr + 2) / 3)%nat w) /\
    length arr' = length arr /\
    (forall j : nat, (j mod 3 <> 0)%nat -> arr' !! j = arr !! j) /\
    (forall j : nat, (j < length arr)%nat -> (j mod 3 = 0)%nat ->
       arr' !! j = Some (seed_cell (Math_random (browser w) (drawn w + j / 3)%nat))).
Proof.
  destruct (seed_run arr w) as (arr' & k & Hrun & Hlen & Hget).
  destruct (seed_loop_draws (length arr) 0 arr w) as (arr2 & Hdraws); [lia|].
  rewrite Nat.sub_0_r in Hdraws. unfold seed in Hrun |- *.
  rewrite Hdraws in Hrun |- *. injection Hrun as -> _.
  exists arr'. split; [reflexivity|]. split; [exact Hlen|]. split.
  - intros j Hj. rewrite Hget. now rewrite decide_False by (intros []; contradiction).
  - intros j Hj Hmod. rewrite Hget. now rewrite decide_True.
Qed.

Example seed_empty w : seed [] w = (Return [], w).
Proof. reflexivity. Qed.

(** ** When [init] returns and what a failure leaves *)

Lemma main_on_cases CS SS h b c :
  main_on CS SS h (page b c) =
  let listening := with_listener "resize" (page b c) in
  let styled := with_canvas (resized b c) listening in
  let asked := with_call requestAdapter styled in
  let requested := with_call requestDevice asked in
  let context := with_call (getContext "webgpu") requested in
  if negb (canvas_found h) then (Throw "TypeError", listening)
  else if negb (navigator_gpu b)
  then (Throw "WebGPU not supported on this browser", styled)
  else if negb (adapter_found b)
  then (Throw "No appropriate GPUAdapter found.", asked)
  else match device_refused h with
       | Some reason => (Throw reason, requested)
       | None =>
           if negb (context_found b)
           then (Throw "Could not get canvas context", context)
           else setup CS SS (preferredCanvasFormat b)
                  (with_call (configure (preferredCanvasFormat b))
                     (with_call getPreferredCanvasFormat context))
       end.
Proof.
  destruct h as [found refused].
  cbv [main_on init_on resize_on acquire_on bind get call modify resize throw ret
       canvas_found device_refused].
  cbn -[setup resized].
  destruct found; cbn -[setup resized]; [|reflexivity].
  destruct (navigator_gpu b); cbn -[setup resized]; [|reflexivity].
  destruct (adapter_found b); cbn -[setup resized]; [|reflexivity].
  destruct refused; cbn -[setup resized]; [reflexivity|].
  destruct (context_found b); cbn -[setup resized]; reflexivity.
Qed.

(** X2. [init] returns the closure exactly when the page has the canvas
    element, the browser has [navigator.gpu], an adapter is found,
    [requestDevice] is not refused and the canvas yields a context.
    Otherwise it throws at the first of these five points that fails: a
    [TypeError] from [resize] without the canvas, the error of the failed
    check, or the reason of the refusal. The model's loop bound is never
    what ends it. [main] is [init] on a host where nothing is missing. *)
Theorem init_returns_exactly_when_nothing_is_missing CS SS h b c :
  ((exists e w0, main_on CS SS h (page b c) = (Return e, w0)) <->
   canvas_found h = true /\ navigator_gpu b = true /\ adapter_found b = true /\
   device_refused h = None /\ context_found b = true) /\
  (forall w', main_on CS SS h (page b c) <> (OutOfFuel, w')) /\
  (forall msg w', main_on CS SS h (page b c) = (Throw msg, w') ->
     msg = if negb (canvas_found h) then "TypeError"
           else if negb (navigator_gpu b) then "WebGPU not supported on this browser"
           else if negb (adapter_found b) then "No appropriate GPUAdapter found."
           else match device_refused h with
                | Some reason => reason
                | None => "Could not get canvas context"
                end) /\
  main_on CS SS sound_host = main CS SS.
Proof.
  rewrite main_on_cases. cbv zeta.
  match goal with
  | |- context [setup _ _ ?fmt ?w1] =>
      destruct (setup_run CS SS fmt w1) as (e' & w1' & cells & A & B & Hrun & _);
      rewrite Hrun; clear Hrun
  end.
  destruct (canvas_found h), (navigator_gpu b), (adapter_found b),
    (device_refused h), (context_found b); cbn [negb];
    (split;
     [ split;
       [ intros (e & w0 & Heq); first [discriminate Heq | repeat split]
       | intros (H1 & H2 & H3 & H4 & H5); first [discriminate | eauto] ]
     | split;
       [ intros w' Heq; discriminate Heq
       | split;
         [ intros msg w' Heq;
           first [discriminate Heq | now injection Heq as <- _]
         | reflexivity ] ] ]).
Qed.

(** X3. When [init] throws, the [resize] listener of line 5 is
    registered. Without the canvas element nothing else has happened.
    With it, the canvas has been restyled by the [resize] of line 7, and
    the calls made are those up to the failure: none without
    [navigator.gpu], [requestAdapter] without an adapter, [requestAdapter]
    and [requestDevice] when the device is refused, and these two with
    [getContext] without a context. In every case the context has not been
    configured, no buffer has been created, nothing has been uploaded and
    no random number has been drawn. *)
Theorem failed_init_state CS SS h b c msg w' :
  main_on CS SS h (page b c) = (Throw msg, w') ->
  listeners w' = ["resize"] /\
  canvas w' = (if canvas_found h then resized b c else c) /\
  calls w' =
    (if negb (canvas_found h) || negb (navigator_gpu b) then []
     else if negb (adapter_found b) then [requestAdapter]
     else match device_refused h with
          | Some _ => [requestAdapter; requestDevice]
          | None => [requestAdapter; requestDevice; getContext "webgpu"]
          end) /\
  configured_formats (calls w') = [] /\
  filter (fun c => is_createBuffer c = true) (calls w') = [] /\
  uploaded w' = ∅ /\ drawn w' = 0%nat.
Proof.
  rewrite main_on_cases. cbv zeta.
  destruct (canvas_found h); cbn [negb orb]; [|intros [= <- <-]; repeat split].
  destruct (navigator_gpu b); cbn [negb orb]; [|intros [= <- <-]; repeat split].
  destruct (adapter_found b); cbn [negb]; [|intros [= <- <-]; repeat split].
  destruct (device_refused h); [intros [= <- <-]; repeat split|].
  destruct (context_found b); cbn [negb]; [|intros [= <- <-]; repeat split].
  match goal with
  | |- setup _ _ ?fmt ?w1 = _ -> _ =>
      destruct (setup_run CS SS fmt w1) as (e' & w1' & cells & A & B & Hrun & Hset);
      rewrite Hrun; discriminate
  end.
Qed.

(** The demo page when the adapter refuses the device. *)
Lemma failed_init_state_witness :
  exists w',
    main_on "" "" {| canvas_found := true; device_refused := Some "OperationError" |}
      (page demo_browser demo_canvas) = (Throw "OperationError", w') /\
    calls w' = [requestAdapter; requestDevice] /\
    style (canvas w') !! "width" = Some (px 720).
Proof.
  eexists. split; [vm_compute; reflexivity|].
  match goal with
  | |- calls ?w = _ /\ _ =>
      assert (Hmain :
        main_on "" "" {| canvas_found := true; device_refused := Some "OperationError" |}
          (page demo_browser demo_canvas) = (Throw "OperationError", w))
        by (vm_compute; reflexivity);
      destruct (failed_init_state _ _ _ _ _ _ _ Hmain) as (_ & Hc & Hcalls & _)
  end.
  split; [exact Hcalls|]. rewrite Hc. vm_compute. reflexivity.
Defined.

(** The demo page without the canvas element. *)
Example init_without_canvas :
  main_on "" "" {| canvas_found := false; device_refused := None |}
    (page demo_browser demo_canvas) =
  (Throw "TypeError", with_listener "resize" (page demo_browser demo_canvas)).
Proof. reflexivity. Qed.

(** ** The random source *)

Lemma setup_drawn CS SS fmt w e w' :
  setup CS SS fmt w = (Return e, w') -> drawn w' = (drawn w + 342)%nat.
Proof.
  unfold setup.
  cbn -[seed new_Uint32Array insert the_vertices the_bindGroupLayout Z2float].
  unfold bind at 1.
  match goal with
  | |- context [seed ?arr ?w1] =>
      destruct (seed_loop_draws (length arr) 0 arr w1) as (cells & Hrun); [lia|];
      unfold seed; rewrite Hrun
  end.
  unfold new_Uint32Array. rewrite length_replicate.
  change (Z.to_nat (32 * 32)) with 1024%nat.
  change ((1024 + 2 - 0) / 3)%nat with 342%nat.
  cbn -[insert the_vertices the_bindGroupLayout Z2float].
  intros H. apply (f_equal (fun p => drawn (snd p))) in H.
  cbn [snd drawn with_call with_step with_upload with_created with_drawn] in H.
  now rewrite <- H.
Qed.

Lemma main_drawn CS SS b c e w0 :
  main CS SS (page b c) = (Return e, w0) -> drawn w0 = 342%nat.
Proof.
  cbv [main init acquire bind get call modify resize throw ret].
  cbn -[setup resized].
  destruct (navigator_gpu b); cbn -[setup resized]; [|discriminate].
  destruct (adapter_found b); cbn -[setup resized]; [|discriminate].
  destruct (context_found b); cbn -[setup resized]; [|discriminate].
  intros H. apply setup_drawn in H. exact H.
Qed.

Lemma main_world CS SS b c e w0 :
  main CS SS (page b c) = (Return e, w0) ->
  created w0 = 4%nat /\ listeners w0 = ["resize"] /\ canvas w0 = resized b c /\
  browser w0 = b /\
  filter (fun c => is_setInterval c = true) (calls w0) = [setInterval 500] /\
  last (calls w0) = Some (setInterval (UPDATE_INTERVAL e)) /\
  submitted (calls w0) = [].
Proof.
  intros H. apply main_Return in H
    as (_ & _ & _ & w1 & cells & A & B & Hcalls & Hb & Hcv & Hl & _ & Hc & _ & Hset).
  destruct Hset.
  rewrite su_created0, Hc, su_listeners0, Hl, su_canvas0, Hcv, su_browser0, Hb.
  rewrite su_calls0, Hcalls, su_bindGroups0, su_UPDATE_INTERVAL0.
  repeat split.
Qed.

Lemma tick_calls_are_no_timer (extra : list Call) :
  forallb is_tick_call extra = true ->
  filter (fun c => is_setInterval c = true) extra = [] /\
  forallb upload_fills extra = true.
Proof.
  induction extra as [|c extra IH]; [easy|].
  cbn [forallb]. intros [Hc Hf]%andb_prop. destruct (IH Hf) as (IH1 & IH2).
  destruct c; try discriminate Hc; rewrite filter_cons; cbn; auto.
Qed.

(** ** The generation counter *)

(** X4. After [t] ticks, with any resize events in between, [step] is [t]
    as long as [t <= 2^53] and stays at [2^53] from then on; it is never
    negative and never decreases. *)
Theorem generation_counter_stops_at_2_53 CS SS WORKGROUP_SIZE b c e w0 (t : N) w :
  main CS SS (page b c) = (Return e, w0) ->
  runs WORKGROUP_SIZE e w0 t w ->
  step w = Z.min (Z.of_N t) (2 ^ 53) /\
  0 <= step w <= 2 ^ 53 /\
  forall w', updateGrid WORKGROUP_SIZE e w = (Return tt, w') ->
             step w <= step w' <= step w + 1.
Proof.
  intros Hmain Hruns.
  destruct (main_groups _ _ _ _ _ _ Hmain)
    as (A & B & _ & _ & _ & _ & Hs0 & _ & _ & Hbg).
  pose proof (runs_step _ _ _ _ Hbg _ Hs0 _ _ Hruns) as Hstep.
  unfold JS.MAX_EXACT in Hstep. split; [exact Hstep|]. split; [lia|].
  intros w' Htick.
  rewrite (updateGrid_run WORKGROUP_SIZE _ _ _ Hbg w) in Htick by lia.
  apply (f_equal (fun p => step (snd p))) in Htick. cbn in Htick. rewrite <- Htick.
  unfold JS.js_incr. destruct (step w <? JS.MAX_EXACT); lia.
Qed.

Lemma generation_counter_stops_at_2_53_witness :
  exists e w0 w,
    main "" "" (page demo_browser demo_canvas) = (Return e, w0) /\
    runs 8 e w0 1 w /\ step w = 1.
Proof.
  demo_start ltac:(fun e w0 Hmain =>
    demo_tick e w0 ltac:(fun w Htick =>
      exists e, w0, w;
      pose proof (runs_tick 8 e w0 0 w0 w (runs_start 8 e w0) Htick) as Hruns;
      destruct (generation_counter_stops_at_2_53 _ _ _ _ _ _ _ _ _ Hmain Hruns)
        as (Hstep & _);
      split; [exact Hmain|]; split; [exact Hruns|]; exact Hstep)).
Defined.

(** ** The log after [init] *)

Lemma tick_log_app frames cb :
  tick_log (frames ++ [cb]) =
  (tick_log frames ++ [createCommandEncoder; getCurrentTexture; submit cb])%list.
Proof. unfold tick_log. rewrite flat_map_app. reflexivity. Qed.

Lemma tick_log_calls frames :
  submitted (tick_log frames) = frames /\
  forallb is_tick_call (tick_log frames) = true /\
  length (filter (fun c => is_createCommandEncoder c = true) (tick_log frames)) =
    length frames /\
  length (filter (fun c => is_getCurrentTexture c = true) (tick_log frames)) =
    length frames.
Proof.
  induction frames as [|cb frames (IH1 & IH2 & IH3 & IH4)]; [repeat split|].
  change (tick_log (cb :: frames))
    with (createCommandEncoder :: getCurrentTexture :: submit cb :: tick_log frames).
  rewrite !filter_cons. cbn -[tick_log].
  repeat (case_decide; try discriminate; try congruence).
  cbn [length]. rewrite IH3, IH4.
  unfold submitted in *. rewrite IH1. repeat split. exact IH2.
Qed.

Lemma runs_ticks WORKGROUP_SIZE e g0 g1 w0 t w :
  bindGroups e = [g0; g1] -> step w0 = 0 ->
  runs WORKGROUP_SIZE e w0 t w ->
  exists frames,
    N.of_nat (length frames) = t /\
    calls w = (calls w0 ++ tick_log frames)%list.
Proof.
  intros Hbg Hs0.
  induction 1 as [|t w w' Hr (frames & Hn & Hc) Htick
                  |t w cw ch iw ih w' _ (frames & Hn & Hc) Hres].
  - exists []. split; [reflexivity|]. now rewrite app_nil_r.
  - rewrite (updateGrid_run _ _ _ _ Hbg) in Htick
      by (eapply runs_step_nonneg; eauto).
    injection Htick as <-.
    eexists (frames ++ [_])%list.
    rewrite length_app, ticked_calls, Hc, tick_log_app, <- app_assoc.
    split; [cbn; lia | reflexivity].
  - injection Hres as <-. exists frames. auto.
Qed.

Lemma main_buffers CS SS b c e w0 :
  main CS SS (page b c) = (Return e, w0) ->
  length (filter (fun c => is_createBuffer c = true) (calls w0)) = 4%nat.
Proof.
  intros H. apply main_Return in H
    as (_ & _ & _ & w1 & cells & A & B & Hcalls & _ & _ & _ & _ & _ & _ & Hset).
  rewrite (su_calls _ _ _ _ _ _ _ _ _ Hset), Hcalls.
  rewrite (su_bindGroups _ _ _ _ _ _ _ _ _ Hset). reflexivity.
Qed.

(** X5. After [init], every tick appends exactly three calls to the log,
    [createCommandEncoder], [getCurrentTexture] and [submit], in this
    order, and a resize event appends none: after [t] ticks the log is
    that of [init] followed by [t] such triples. So ticks and resize
    events never call [createBuffer], [createShaderModule],
    [createBindGroupLayout], [createBindGroup], [createPipelineLayout],
    [createRenderPipeline], [createComputePipeline], [writeBuffer],
    [configure] or [setInterval], and never draw a random number. The log
    holds the four [createBuffer] calls and the one [setInterval] call of
    [init], which is the last call of [init], with 500 milliseconds;
    [init] drew 342 random numbers; the listeners and the [width] and
    [height] attributes of the canvas are those of the page. *)
Theorem each_tick_appends_one_frame CS SS WORKGROUP_SIZE b c e w0 (t : N) w :
  main CS SS (page b c) = (Return e, w0) ->
  runs WORKGROUP_SIZE e w0 t w ->
  exists frames,
    N.of_nat (length frames) = t /\
    calls w = (calls w0 ++ tick_log frames)%list /\
    submitted (calls w) = frames /\
    length (filter (fun c => is_createCommandEncoder c = true) (calls w)) = length frames /\
    length (filter (fun c => is_getCurrentTexture c = true) (calls w)) = length frames /\
    length (filter (fun c => is_createBuffer c = true) (calls w)) = 4%nat /\
    filter (fun c => is_setInterval c = true) (calls w) = [setInterval 500] /\
    last (calls w0) = Some (setInterval 500) /\
    configured_formats (calls w) = [preferredCanvasFormat b] /\
    drawn w = 342%nat /\
    uploaded w = uploaded w0 /\ listeners w = ["resize"] /\
    width (canvas w) = width c /\ height (canvas w) = height c.
Proof.
  intros Hmain Hruns.
  destruct (main_groups _ _ _ _ _ _ Hmain)
    as (A & B & _ & _ & _ & _ & Hs0 & _ & _ & Hbg).
  destruct (main_world _ _ _ _ _ _ Hmain) as (Hc & Hl & Hcv & _ & Htimer & Hlast & Hsub).
  pose proof (main_drawn _ _ _ _ _ _ Hmain) as Hd.
  pose proof (main_buffers _ _ _ _ _ _ Hmain) as Hbuf.
  assert (HU : UPDATE_INTERVAL e = 500 /\
               configured_formats (calls w0) = [preferredCanvasFormat b] /\
               length (filter (fun c => is_createCommandEncoder c = true) (calls w0)) = 0%nat /\
               length (filter (fun c => is_getCurrentTexture c = true) (calls w0)) = 0%nat).
  { apply main_Return in Hmain
      as (_ & _ & _ & w1 & cs & A1 & B1 & Hacq & _ & _ & _ & _ & _ & _ & Hset).
    split; [apply Hset|].
    rewrite (su_calls _ _ _ _ _ _ _ _ _ Hset), Hacq.
    rewrite (su_bindGroups _ _ _ _ _ _ _ _ _ Hset). repeat split. }
  destruct HU as (HU & Hconf & Henc & Htex).
  destruct (runs_ticks _ _ _ _ _ _ _ Hbg Hs0 Hruns) as (frames & Hn & Hcalls).
  destruct (runs_keeps _ _ _ _ Hbg _ Hs0 _ _ Hruns) as (Hu & Hcr & Hdr & Hli & Hw & Hh).
  destruct (tick_log_calls frames) as (Hsubs & Htick & Hencs & Htexs).
  destruct (tick_calls_are_no_timer _ Htick) as (Hnt & _).
  destruct (tick_calls_create_nothing _ Htick) as (_ & Hnb & _).
  assert (Hnc : configured_formats (tick_log frames) = []).
  { clear. induction frames as [|cb frames IH]; [reflexivity|]. exact IH. }
  exists frames. rewrite Hcalls, Hdr, Hu, Hli, Hw, Hh, Hcv, Hl, Hd, <- HU.
  split; [exact Hn|]. split; [reflexivity|].
  split; [unfold submitted in *; now rewrite omap_app, Hsub|].
  split; [rewrite filter_app, length_app, Henc, Hencs; reflexivity|].
  split; [rewrite filter_app, length_app, Htex, Htexs; reflexivity|].
  split; [rewrite filter_app, length_app, Hbuf, Hnb; reflexivity|].
  split; [rewrite filter_app, Hnt, app_nil_r, HU; exact Htimer|].
  split; [exact Hlast|].
  split; [unfold configured_formats in *; now rewrite omap_app, Hconf, Hnc|].
  repeat split.
Qed.

Lemma each_tick_appends_one_frame_witness :
  exists e w0 w,
    main "" "" (page demo_browser demo_canvas) = (Return e, w0) /\
    runs 8 e w0 1 w /\
    length (submitted (calls w)) = 1%nat /\
    length (filter (fun c => is_createBuffer c = true) (calls w)) = 4%nat.
Proof.
  demo_start ltac:(fun e w0 Hmain =>
    demo_tick e w0 ltac:(fun w Htick =>
      exists e, w0, w;
      pose proof (runs_tick 8 e w0 0 w0 w (runs_start 8 e w0) Htick) as Hruns;
      destruct (each_tick_appends_one_frame _ _ _ _ _ _ _ _ _ Hmain Hruns)
        as (frames & Hn & _ & Hsub & _ & _ & Hbuf & _);
      split; [exact Hmain|]; split; [exact Hruns|]; split; [|exact Hbuf];
      rewrite Hsub; lia)).
Defined.

(** ** Device resources are created before they are used *)

Lemma by_parity_elem {A} (x0 x1 : A) s : by_parity x0 x1 s ∈ [x0; x1].
Proof. unfold by_parity. destruct (Z.even s); set_solver. Qed.

Lemma runs_frames WORKGROUP_SIZE e g0 g1 w0 t w :
  bindGroups e = [g0; g1] -> step w0 = 0 ->
  runs WORKGROUP_SIZE e w0 t w ->
  exists extra,
    calls w = (calls w0 ++ extra)%list /\
    Forall (fun c => c = createCommandEncoder \/ c = getCurrentTexture \/
                     exists cg rg, cg ∈ [g0; g1] /\ rg ∈ [g0; g1] /\
                                   c = submit (frame WORKGROUP_SIZE e cg rg)) extra.
Proof.
  intros Hbg Hs0.
  induction 1 as [|t w w' Hr (extra & Hc & Hf) Htick
                  |t w cw ch iw ih w' _ (extra & Hc & Hf) Hres].
  - exists []. now rewrite app_nil_r.
  - rewrite (updateGrid_run _ _ _ _ Hbg) in Htick
      by (eapply runs_step_nonneg; eauto).
    injection Htick as <-.
    eexists (extra ++ [createCommandEncoder; getCurrentTexture; submit _])%list.
    rewrite ticked_calls, Hc, <- app_assoc. split; [reflexivity|].
    apply Forall_app. split; [exact Hf|].
    constructor; [now left|]. constructor; [now right; left|].
    constructor; [|constructor]. right. right. do 2 eexists.
    split; [apply by_parity_elem|]. split; [apply by_parity_elem|]. reflexivity.
  - injection Hres as <-. exists extra. auto.
Qed.

Lemma resources_created_before_use_app known l1 l2 :
  resources_created_before_use known (l1 ++ l2) =
  resources_created_before_use known l1 &&
  resources_created_before_use (rev (omap resource_created l1) ++ known) l2.
Proof.
  revert known. induction l1 as [|c l1 IH]; intros known; [reflexivity|].
  cbn [app resources_created_before_use]. rewrite IH, andb_assoc. do 2 f_equal.
  change (omap resource_created (c :: l1))
    with (match resource_created c with Some r => r :: omap resource_created l1 | None => omap resource_created l1 end).
  destruct (resource_created c); cbn [rev]; [|reflexivity].
  now rewrite <- app_assoc.
Qed.

Lemma resources_created_before_use_static known cs :
  Forall (fun c => resource_created c = None /\ Forall (fun r => r ∈ known) (resources_taken c)) cs ->
  resources_created_before_use known cs = true.
Proof.
  induction 1 as [|c cs [Hm Hn] _ IH]; [reflexivity|].
  cbn [resources_created_before_use]. rewrite Hm, IH, andb_true_r.
  apply forallb_forall. intros r Hr. apply bool_decide_eq_true_2.
  rewrite Forall_forall in Hn. apply Hn. now apply list_elem_of_In.
Qed.

Ltac find_in_list :=
  apply bool_decide_eq_true_2;
  repeat first [apply list_elem_of_here | apply list_elem_of_further].

Lemma main_objects CS SS b c e w0 :
  main CS SS (page b c) = (Return e, w0) ->
  exists A B,
    cellStateStorage e = [A; B] /\
    omap resource_created (calls w0) =
      ([ Buffer (uniformBuffer e); Buffer A; Buffer B; Buffer (vertexBuffer e);
         ShaderModule (rp_vertex_module (cellPipeline e));
         ShaderModule (cp_module (simulatePipeline e));
         BindGroupLayout (bindGroupLayout e) ] ++
       (BindGroup <$> bindGroups e) ++
       [ PipelineLayout (rp_layout (cellPipeline e));
         RenderPipelineObject (cellPipeline e);
         ComputePipelineObject (simulatePipeline e) ])%list /\
    cp_layout (simulatePipeline e) = rp_layout (cellPipeline e) /\
    resources_created_before_use [] (calls w0) = true.
Proof.
  intros H. apply main_Return in H
    as (_ & _ & _ & w1 & cells & A & B & Hcalls & _ & _ & _ & _ & _ & _ & Hset).
  exists A, B.
  rewrite (su_calls _ _ _ _ _ _ _ _ _ Hset), Hcalls.
  rewrite (su_layout _ _ _ _ _ _ _ _ _ Hset), (su_bindGroups _ _ _ _ _ _ _ _ _ Hset).
  rewrite (su_cellPipeline _ _ _ _ _ _ _ _ _ Hset).
  rewrite (su_simulatePipeline _ _ _ _ _ _ _ _ _ Hset).
  split; [apply Hset|]. split; [reflexivity|]. split; [reflexivity|].
  lazy beta iota zeta delta
      [resources_created_before_use resources_taken resource_created forallb app fmap list_fmap acquired_calls andb
       bg_layout bg_entries resource pl_bindGroupLayouts rp_layout rp_vertex_module
       rp_fragment_module cp_layout cp_module].
  repeat (apply andb_true_intro; split);
    first [find_in_list; fail | reflexivity].
Qed.

(** X6. Of the resources that the device's [create...] methods for
    buffers, shader modules, layouts, bind groups and pipelines return,
    [init] creates twelve, in this order: the uniform buffer, the two state
    buffers, the vertex buffer, the two shader modules, the bind group
    layout, the two bind groups, the pipeline layout shared by the render
    and the compute pipeline, and the two pipelines; ticks and resize events
    create none. Throughout the log, every such resource among the
    arguments of a call ([writeBuffer], [createBindGroup],
    [createPipelineLayout], the two pipeline creations, and the commands of
    a submitted pass) was returned by an earlier call. The adapter, the
    device, the context and the per-tick encoders, texture and command
    buffer are not resources in this sense. *)
Theorem resources_are_created_before_use CS SS WORKGROUP_SIZE b c e w0 (t : N) w :
  main CS SS (page b c) = (Return e, w0) ->
  runs WORKGROUP_SIZE e w0 t w ->
  exists A B g0 g1,
    cellStateStorage e = [A; B] /\
    bindGroups e = [g0; g1] /\
    omap resource_created (calls w) =
      [ Buffer (uniformBuffer e); Buffer A; Buffer B; Buffer (vertexBuffer e);
        ShaderModule (rp_vertex_module (cellPipeline e));
        ShaderModule (cp_module (simulatePipeline e));
        BindGroupLayout (bindGroupLayout e);
        BindGroup g0; BindGroup g1;
        PipelineLayout (rp_layout (cellPipeline e));
        RenderPipelineObject (cellPipeline e);
        ComputePipelineObject (simulatePipeline e) ] /\
    cp_layout (simulatePipeline e) = rp_layout (cellPipeline e) /\
    resources_created_before_use [] (calls w) = true.
Proof.
  intros Hmain Hruns.
  destruct (main_groups _ _ _ _ _ _ Hmain)
    as (A0 & B0 & _ & _ & _ & _ & Hs0 & _ & _ & Hbg).
  destruct (main_objects _ _ _ _ _ _ Hmain) as (A & B & Hst & Hmade & Hlay & Hok).
  destruct (runs_frames _ _ _ _ _ _ _ Hbg Hs0 Hruns) as (extra & Hcalls & Hextra).
  assert (Hstatic :
    Forall (fun c => resource_created c = None /\
                     Forall (fun r => r ∈ (rev (omap resource_created (calls w0)) ++ [])%list)
                            (resources_taken c)) extra).
  { eapply Forall_impl; [exact Hextra|].
    intros x [->|[->|(cg & rg & Hcg & Hrg & ->)]]; (split; [reflexivity|]).
    - constructor.
    - constructor.
    - rewrite Hmade, Hbg, app_nil_r.
      cbn [resources_taken frame flat_map pass_commands command_resources app].
      cbn [fmap list_fmap app rev].
      rewrite !elem_of_cons, elem_of_nil in Hcg, Hrg.
      destruct Hcg as [->|[->|[]]], Hrg as [->|[->|[]]];
        repeat (apply Forall_cons_2 || apply Forall_nil_2);
        repeat first [apply list_elem_of_here | apply list_elem_of_further]. }
  exists A, B. do 2 eexists. split; [exact Hst|]. split; [exact Hbg|].
  rewrite Hcalls. split; [|split; [exact Hlay|]].
  - transitivity (omap resource_created (calls w0)); [|now rewrite Hmade, Hbg].
    rewrite omap_app. rewrite <- (app_nil_r (omap resource_created (calls w0))) at 2.
    f_equal. clear -Hstatic. induction Hstatic as [|x l [Hx _] _ IH]; [reflexivity|].
    change (omap resource_created (x :: l))
      with (match resource_created x with Some r => r :: omap resource_created l | None => omap resource_created l end).
    now rewrite Hx.
  - rewrite resources_created_before_use_app, Hok. cbn [andb].
    now apply resources_created_before_use_static.
Qed.

Lemma resources_are_created_before_use_witness :
  exists e w0 w,
    main "" "" (page demo_browser demo_canvas) = (Return e, w0) /\
    runs 8 e w0 1 w /\
    length (omap resource_created (calls w)) = 12%nat /\
    resources_created_before_use [] (calls w) = true.
Proof.
  demo_start ltac:(fun e w0 Hmain =>
    demo_tick e w0 ltac:(fun w Htick =>
      exists e, w0, w;
      pose proof (runs_tick 8 e w0 0 w0 w (runs_start 8 e w0) Htick) as Hruns;
      destruct (resources_are_created_before_use _ _ _ _ _ _ _ _ _ Hmain Hruns)
        as (A & B & g0 & g1 & _ & _ & Hmade & _ & Hok);
      split; [exact Hmain|]; split; [exact Hruns|]; split; [|exact Hok];
      rewrite Hmade; reflexivity)).
Defined.

(** ** Uploads and bindings respect the buffers *)

(** X7. After [init] and any number of ticks and resize events, every
    upload in the log goes to a buffer created with [COPY_DST], starts at
    offset [0] and is exactly as long as the buffer; each of the four
    buffers has received exactly one upload. *)
Theorem every_upload_fills_its_buffer CS SS WORKGROUP_SIZE b c e w0 (t : N) w :
  main CS SS (page b c) = (Return e, w0) ->
  runs WORKGROUP_SIZE e w0 t w ->
  forallb upload_fills (calls w) = true /\
  Forall (fun buf => length (uploads_to buf (calls w)) = 1%nat)
         (uniformBuffer e :: vertexBuffer e :: cellStateStorage e).
Proof.
  intros Hmain Hruns.
  destruct (main_groups _ _ _ _ _ _ Hmain)
    as (A0 & B0 & _ & _ & _ & _ & Hs0 & _ & _ & Hbg).
  destruct (runs_log _ _ _ _ Hbg _ Hs0 _ _ Hruns) as (extra & Hcalls & Hextra & _).
  destruct (tick_calls_are_no_timer extra Hextra) as (_ & Hfill).
  destruct (tick_calls_create_nothing extra Hextra) as (_ & _ & Hnone).
  apply main_Return in Hmain
    as (_ & _ & _ & w1 & cells & A & B & Hacq & _ & _ & _ & _ & Hc & _ & Hset).
  pose proof (su_length _ _ _ _ _ _ _ _ _ Hset) as Hlen.
  pose proof (su_A _ _ _ _ _ _ _ _ _ Hset) as HA.
  pose proof (su_B _ _ _ _ _ _ _ _ _ Hset) as HB.
  rewrite Hc in HA, HB.
  rewrite Hcalls, (su_storage _ _ _ _ _ _ _ _ _ Hset).
  rewrite (su_calls _ _ _ _ _ _ _ _ _ Hset), Hacq.
  rewrite (su_bindGroups _ _ _ _ _ _ _ _ _ Hset).
  rewrite (su_cellPipeline _ _ _ _ _ _ _ _ _ Hset).
  rewrite (su_simulatePipeline _ _ _ _ _ _ _ _ _ Hset).
  rewrite (su_vertexBuffer _ _ _ _ _ _ _ _ _ Hset).
  rewrite (su_uniformBuffer _ _ _ _ _ _ _ _ _ Hset), Hc.
  subst A B. split.
  - rewrite forallb_app, Hfill, andb_true_r.
    lazy beta iota zeta delta
      [forallb app fmap list_fmap acquired_calls upload_fills byteLength ta_length].
    rewrite Hlen. reflexivity.
  - unfold uploads_to in *.
    repeat (apply Forall_cons_2 || apply Forall_nil_2);
      rewrite omap_app, length_app, Hnone; reflexivity.
Qed.

Lemma every_upload_fills_its_buffer_witness :
  exists e w0 w,
    main "" "" (page demo_browser demo_canvas) = (Return e, w0) /\
    runs 8 e w0 1 w /\
    forallb upload_fills (calls w) = true.
Proof.
  demo_start ltac:(fun e w0 Hmain =>
    demo_tick e w0 ltac:(fun w Htick =>
      exists e, w0, w;
      pose proof (runs_tick 8 e w0 0 w0 w (runs_start 8 e w0) Htick) as Hruns;
      destruct (every_upload_fills_its_buffer _ _ _ _ _ _ _ _ _ Hmain Hruns)
        as (Hfill & _);
      split; [exact Hmain|]; split; [exact Hruns|]; exact Hfill)).
Defined.

(** X8. Each of the two bind groups has exactly one buffer for each entry
    of the layout, created with the usage the entry's type asks for. To
    the compute stage it shows the uniform buffer, one state buffer as
    read-only storage and the other state buffer as writable storage, never
    the same buffer as both; to the vertex and fragment stages it shows no
    writable storage at all. *)
Theorem bind_groups_conform_and_never_alias CS SS b c e w0 :
  main CS SS (page b c) = (Return e, w0) ->
  Forall (fun g =>
            bg_layout g = bindGroupLayout e /\
            group_conforms g = true /\
            bound_as uniform GPUShaderStage.COMPUTE g = [uniformBuffer e] /\
            bound_as storage
              (Z.lor GPUShaderStage.VERTEX GPUShaderStage.FRAGMENT) g = [] /\
            exists src dst,
              bound_as read_only_storage GPUShaderStage.COMPUTE g = [src] /\
              bound_as storage GPUShaderStage.COMPUTE g = [dst] /\
              src <> dst /\
              src ∈ cellStateStorage e /\ dst ∈ cellStateStorage e)
         (bindGroups e).
Proof.
  intros Hmain.
  apply main_Return in Hmain
    as (_ & _ & _ & w1 & cells & A & B & _ & _ & _ & _ & _ & Hc & _ & Hset).
  pose proof (su_A _ _ _ _ _ _ _ _ _ Hset) as HA.
  pose proof (su_B _ _ _ _ _ _ _ _ _ Hset) as HB.
  rewrite (su_bindGroups _ _ _ _ _ _ _ _ _ Hset), (su_storage _ _ _ _ _ _ _ _ _ Hset).
  rewrite (su_layout _ _ _ _ _ _ _ _ _ Hset).
  rewrite (su_uniformBuffer _ _ _ _ _ _ _ _ _ Hset).
  rewrite HA, HB in *.
  repeat (apply Forall_cons_2 || apply Forall_nil_2);
    (split; [reflexivity|]); (split; [reflexivity|]); (split; [reflexivity|]);
    (split; [reflexivity|]); do 2 eexists;
    (split; [reflexivity|]); (split; [reflexivity|]);
    (split; [intros [= ?]; lia|]); split;
    repeat first [apply list_elem_of_here | apply list_elem_of_further].
Qed.

Lemma bind_groups_conform_and_never_alias_witness :
  exists e w0,
    main "" "" (page demo_browser demo_canvas) = (Return e, w0) /\
    Forall (fun g => group_conforms g = true) (bindGroups e).
Proof.
  demo_start ltac:(fun e w0 Hmain =>
    exists e, w0; split; [exact Hmain|];
    eapply Forall_impl;
      [exact (bind_groups_conform_and_never_alias _ _ _ _ _ _ Hmain)|];
    intros g Hg; apply Hg).
Defined.

(** ** Consecutive ticks *)

(** X9. For two consecutive ticks [t] and [t + 1], with [t + 1 < 2^53]:
    both succeed; the compute pass of the second reads the buffer that the
    compute pass of the first wrote, and writes the buffer that the first
    read; the render pass of the first reads what the compute pass of the
    second reads, so what is shown is the input of the next generation; and
    no compute pass reads the buffer it writes. *)
Theorem next_tick_reads_what_this_tick_wrote CS SS WORKGROUP_SIZE b c e w0 (t : N) w :
  main CS SS (page b c) = (Return e, w0) ->
  runs WORKGROUP_SIZE e w0 t w ->
  (t + 1 < 2 ^ 53)%N ->
  exists w1 w2 cb1 cb2,
    updateGrid WORKGROUP_SIZE e w = (Return tt, w1) /\
    updateGrid WORKGROUP_SIZE e w1 = (Return tt, w2) /\
    calls w1 = (calls w ++ [createCommandEncoder; getCurrentTexture; submit cb1])%list /\
    calls w2 = (calls w1 ++ [createCommandEncoder; getCurrentTexture; submit cb2])%list /\
    read_by_compute cb2 = written_by_compute cb1 /\
    written_by_compute cb2 = read_by_compute cb1 /\
    read_by_render cb1 = read_by_compute cb2 /\
    read_by_compute cb1 <> written_by_compute cb1 /\
    read_by_compute cb2 <> written_by_compute cb2.
Proof.
  intros Hmain Hruns Ht.
  destruct (main_groups _ _ _ _ _ _ Hmain)
    as (A & B & Hst & HA & HB & _ & Hs0 & _ & _ & Hbg).
  pose proof (runs_step _ _ _ _ Hbg _ Hs0 _ _ Hruns) as Hstep.
  assert (Hstep' : step w = Z.of_N t) by (unfold JS.MAX_EXACT in Hstep; lia).
  assert (Hincr : forall n, 0 <= n < 2 ^ 53 -> JS.js_incr n = n + 1).
  { intros n Hn. unfold JS.js_incr, JS.MAX_EXACT.
    destruct (Z.ltb_spec n (2 ^ 53)); lia. }
  pose proof (updateGrid_run WORKGROUP_SIZE _ _ _ Hbg w) as Hrun1.
  rewrite Hstep', Hincr in Hrun1 by lia. specialize (Hrun1 ltac:(lia)).
  set (w1 := ticked WORKGROUP_SIZE e (by_parity _ _ (Z.of_N t))
                    (by_parity _ _ (Z.of_N t + 1)) w) in Hrun1.
  assert (Hstep1 : step w1 = Z.of_N t + 1).
  { subst w1. cbn [step ticked with_call with_step]. rewrite Hstep'. apply Hincr. lia. }
  pose proof (updateGrid_run WORKGROUP_SIZE _ _ _ Hbg w1) as Hrun2.
  rewrite Hstep1, Hincr in Hrun2 by lia. specialize (Hrun2 ltac:(lia)).
  assert (HAB : A <> B) by (intros ->; congruence).
  exists w1. do 3 eexists.
  split; [exact Hrun1|]. split; [exact Hrun2|].
  split; [apply ticked_calls|]. split; [apply ticked_calls|].
  assert (He2 : Z.even (Z.of_N t + 1 + 1) = Z.even (Z.of_N t)).
  { rewrite !Z.even_add. now destruct (Z.even (Z.of_N t)). }
  unfold by_parity. rewrite He2.
  destruct (parity_cases t) as [(_ & He & He')|(_ & He & He')]; rewrite He, He';
    cbn; repeat split; try reflexivity; intros [= ?]; congruence.
Qed.

Lemma next_tick_reads_what_this_tick_wrote_witness :
  exists e w0 w1 w2,
    main "" "" (page demo_browser demo_canvas) = (Return e, w0) /\
    updateGrid 8 e w0 = (Return tt, w1) /\
    updateGrid 8 e w1 = (Return tt, w2).
Proof.
  demo_start ltac:(fun e w0 Hmain =>
    destruct (next_tick_reads_what_this_tick_wrote _ _ 8%positive _ _ _ _ _ _
                Hmain (runs_start 8 e w0) eq_refl)
      as (w1 & w2 & cb1 & cb2 & H1 & H2 & _);
    exists e, w0, w1, w2; auto).
Defined.

(** ** A tick is sized to the buffers *)

(** X10. Every tick sets the compute pipeline in its compute pass and the
    render pipeline and the vertex buffer in its render pass; the vertex
    buffer was created with [VERTEX] usage and holds exactly as many
    strides as the draw has vertices; each state buffer holds exactly one
    32-bit cell per instance of the draw; and the dispatch starts at least
    one invocation per cell, [WORKGROUP_SIZE] invocations per workgroup and
    axis. *)
Theorem tick_fits_buffers CS SS WORKGROUP_SIZE b c e w0 (t : N) w :
  main CS SS (page b c) = (Return e, w0) ->
  runs WORKGROUP_SIZE e w0 t w ->
  exists cb vb vertexCount instanceCount n w',
    updateGrid WORKGROUP_SIZE e w = (Return tt, w') /\
    calls w' = (calls w ++ [createCommandEncoder; getCurrentTexture; submit cb])%list /\
    flat_map pass_pipelines (compute_passes cb) = [ComputePipeline (simulatePipeline e)] /\
    flat_map pass_pipelines (render_passes cb) = [RenderPipeline (cellPipeline e)] /\
    flat_map pass_vertexBuffers (render_passes cb) = [vb] /\
    flat_map pass_draws (render_passes cb) = [(vertexCount, instanceCount)] /\
    flat_map pass_dispatches (compute_passes cb) = [(n, n)] /\
    vb = vertexBuffer e /\
    has_usage GPUBufferUsage.VERTEX vb = true /\
    Forall (fun l => vertexCount * arrayStride l = buf_size vb)
           (rp_vertex_buffers (cellPipeline e)) /\
    rp_vertex_buffers (cellPipeline e) <> [] /\
    Forall (fun s => instanceCount * 4 = buf_size s /\
                     has_usage GPUBufferUsage.STORAGE s = true)
           (cellStateStorage e) /\
    instanceCount <= (n * Z.pos WORKGROUP_SIZE) * (n * Z.pos WORKGROUP_SIZE).
Proof.
  intros Hmain Hruns.
  destruct (main_groups _ _ _ _ _ _ Hmain)
    as (A0 & B0 & _ & _ & _ & _ & Hs0 & HG & Hv & Hbg).
  pose proof (runs_step_nonneg _ _ _ _ Hbg _ Hs0 _ _ Hruns) as Hnn.
  pose proof (updateGrid_run WORKGROUP_SIZE _ _ _ Hbg w Hnn) as Hrun.
  apply main_Return in Hmain
    as (_ & _ & _ & w1 & cells & A & B & _ & _ & _ & _ & _ & Hc & _ & Hset).
  do 6 eexists.
  split; [exact Hrun|]. split; [apply ticked_calls|].
  do 6 (split; [reflexivity|]).
  rewrite (su_vertexBuffer _ _ _ _ _ _ _ _ _ Hset).
  rewrite (su_cellPipeline _ _ _ _ _ _ _ _ _ Hset).
  rewrite (su_storage _ _ _ _ _ _ _ _ _ Hset).
  rewrite (su_A _ _ _ _ _ _ _ _ _ Hset), (su_B _ _ _ _ _ _ _ _ _ Hset).
  rewrite Hv, HG.
  split; [reflexivity|]. split; [repeat constructor|]. split; [discriminate|].
  split; [repeat constructor|].
  pose proof (ceil_div_spec 32 WORKGROUP_SIZE). nia.
Qed.

Lemma tick_fits_buffers_witness :
  exists e w0 cb w',
    main "" "" (page demo_browser demo_canvas) = (Return e, w0) /\
    updateGrid 8 e w0 = (Return tt, w') /\
    calls w' = (calls w0 ++ [createCommandEncoder; getCurrentTexture; submit cb])%list /\
    flat_map pass_vertexBuffers (render_passes cb) = [vertexBuffer e].
Proof.
  demo_start ltac:(fun e w0 Hmain =>
    destruct (tick_fits_buffers _ _ 8%positive _ _ _ _ _ _ Hmain (runs_start 8 e w0))
      as (cb & vb & v & i & n & w' & Hrun & Hcalls & _ & _ & Hvb & _ & _ & -> & _);
    exists e, w0, cb, w'; auto).
Defined.

(** ** [resize] composed with itself and with ticks *)

(** X11. [resize] depends on the window only: running it twice is the same
    as running it once. After it, the canvas is styled as a square (the
    same [width] and [height]) with equal left and right margins and equal
    top and bottom margins. *)
Theorem resize_is_idempotent_and_square (w : World) :
  (bind resize (fun _ => resize) w = resize w) /\
  exists w' side mx my,
    resize w = (Return tt, w') /\
    style (canvas w') !! "width" = Some (px side) /\
    style (canvas w') !! "height" = Some (px side) /\
    style (canvas w') !! "marginLeft" = Some (px mx) /\
    style (canvas w') !! "marginRight" = Some (px mx) /\
    style (canvas w') !! "marginTop" = Some (px my) /\
    style (canvas w') !! "marginBottom" = Some (px my).
Proof.
  split.
  - cbv [bind resize modify]. f_equal.
    cbn [browser canvas with_canvas]. unfold with_canvas. f_equal.
    unfold resized at 1 3. cbn [width height style]. f_equal.
    apply map_eq. intros k. unfold resized. cbn [style].
    rewrite !lookup_insert. repeat case_decide; reflexivity.
  - do 4 eexists. split; [reflexivity|].
    cbn [canvas with_canvas]. unfold resized. cbn [style].
    rewrite !lookup_insert. repeat split.
Qed.

(** X12. After [init], a resize event and a tick commute: the tick submits
    the same command buffer and leaves the same world whether the window
    was resized just before it or just after it. *)
Theorem resize_event_and_tick_commute CS SS WORKGROUP_SIZE b c e w0 (t : N) w
    (cw ch iw ih : float) :
  main CS SS (page b c) = (Return e, w0) ->
  runs WORKGROUP_SIZE e w0 t w ->
  bind (resize_event cw ch iw ih) (fun _ => updateGrid WORKGROUP_SIZE e) w =
  bind (updateGrid WORKGROUP_SIZE e) (fun _ => resize_event cw ch iw ih) w.
Proof.
  intros Hmain Hruns.
  destruct (main_groups _ _ _ _ _ _ Hmain)
    as (A & B & _ & _ & _ & _ & Hs0 & _ & _ & Hbg).
  pose proof (runs_step_nonneg _ _ _ _ Hbg _ Hs0 _ _ Hruns) as Hnn.
  cbv [resize_event bind modify resize].
  rewrite (updateGrid_run WORKGROUP_SIZE _ _ _ Hbg w Hnn).
  rewrite (updateGrid_run WORKGROUP_SIZE _ _ _ Hbg) by exact Hnn.
  reflexivity.
Qed.

Lemma resize_event_and_tick_commute_witness :
  exists e w0 w',
    main "" "" (page demo_browser demo_canvas) = (Return e, w0) /\
    bind (resize_event 800 600 800 600) (fun _ => updateGrid 8 e) w0 = (Return tt, w') /\
    bind (updateGrid 8 e) (fun _ => resize_event 800 600 800 600) w0 = (Return tt, w').
Proof.
  demo_start ltac:(fun e w0 Hmain =>
    pose proof (resize_event_and_tick_commute _ _ 8%positive _ _ _ _ _ _
                  800%float 600%float 800%float 600%float
                  Hmain (runs_start 8 e w0)) as Hcomm;
    exists e, w0; eexists;
    split; [exact Hmain|]; split; [vm_compute; reflexivity|];
    rewrite <- Hcomm; vm_compute; reflexivity).
Defined.

(** ** Formats and layouts agree *)

(** X13. After a successful [init] and any number of ticks and resize
    events, the log starts with [requestAdapter], [requestDevice],
    [getContext], [getPreferredCanvasFormat] and [configure] with the
    browser's preferred format, so the context is configured before the
    first buffer is created; it is configured only that once; and the
    render pipeline has a single fragment target, of that same format. *)
Theorem canvas_format_is_the_pipeline_target CS SS WORKGROUP_SIZE b c e w0 (t : N) w :
  main CS SS (page b c) = (Return e, w0) ->
  runs WORKGROUP_SIZE e w0 t w ->
  exists rest,
    calls w =
      ([ requestAdapter; requestDevice; getContext "webgpu";
         getPreferredCanvasFormat; configure (preferredCanvasFormat b);
         createBuffer (uniformBuffer e) ] ++ rest)%list /\
    configured_formats (calls w) = [preferredCanvasFormat b] /\
    rp_fragment_targets (cellPipeline e) = [preferredCanvasFormat b].
Proof.
  intros Hmain Hruns.
  destruct (main_groups _ _ _ _ _ _ Hmain)
    as (A0 & B0 & _ & _ & _ & _ & Hs0 & _ & _ & Hbg).
  destruct (runs_log _ _ _ _ Hbg _ Hs0 _ _ Hruns) as (extra & Hcalls & Hextra & _).
  assert (Hnone : configured_formats extra = []).
  { clear -Hextra. induction extra as [|x extra IH]; [reflexivity|].
    cbn [forallb] in Hextra. apply andb_prop in Hextra as [Hx Hf].
    destruct x; try discriminate Hx; cbn; auto. }
  apply main_Return in Hmain
    as (_ & _ & _ & w1 & cells & A & B & Hacq & _ & _ & _ & _ & _ & _ & Hset).
  rewrite Hcalls, (su_calls _ _ _ _ _ _ _ _ _ Hset), Hacq.
  rewrite (su_bindGroups _ _ _ _ _ _ _ _ _ Hset).
  rewrite (su_cellPipeline _ _ _ _ _ _ _ _ _ Hset).
  eexists. split; [|split; [|reflexivity]].
  - cbn [acquired_calls app]. rewrite <- !app_assoc. cbn [app]. reflexivity.
  - unfold configured_formats in *. rewrite omap_app, Hnone. reflexivity.
Qed.

Lemma canvas_format_is_the_pipeline_target_witness :
  exists e w0,
    main "" "" (page demo_browser demo_canvas) = (Return e, w0) /\
    configured_formats (calls w0) = ["bgra8unorm"] /\
    rp_fragment_targets (cellPipeline e) = ["bgra8unorm"].
Proof.
  demo_start ltac:(fun e w0 Hmain =>
    destruct (canvas_format_is_the_pipeline_target _ _ 8%positive _ _ _ _ _ _
                Hmain (runs_start 8 e w0)) as (rest & _ & Hf & Hp);
    exists e, w0; auto).
Defined.

(** X14. In both passes of every tick, the bind group is set at index
    [0], after the pipeline, and its layout is the one the pipeline has at
    index [0]: the render and the compute pipeline share the pipeline
    layout, whose only bind group layout is the layout of both bind
    groups. *)
Theorem bind_groups_match_the_pipelines CS SS WORKGROUP_SIZE b c e w0 (t : N) w :
  main CS SS (page b c) = (Return e, w0) ->
  runs WORKGROUP_SIZE e w0 t w ->
  exists cb cg rg w',
    updateGrid WORKGROUP_SIZE e w = (Return tt, w') /\
    calls w' = (calls w ++ [createCommandEncoder; getCurrentTexture; submit cb])%list /\
    flat_map pass_bindings (compute_passes cb) = [(0, cg)] /\
    flat_map pass_bindings (render_passes cb) = [(0, rg)] /\
    forallb (fun p => bindings_match None (pass_commands p)) cb = true /\
    pl_bindGroupLayouts (rp_layout (cellPipeline e)) = [bindGroupLayout e] /\
    pl_bindGroupLayouts (cp_layout (simulatePipeline e)) = [bindGroupLayout e] /\
    bg_layout cg = bindGroupLayout e /\ bg_layout rg = bindGroupLayout e.
Proof.
  intros Hmain Hruns.
  destruct (main_groups _ _ _ _ _ _ Hmain)
    as (A0 & B0 & _ & _ & _ & _ & Hs0 & _ & _ & Hbg).
  pose proof (runs_step_nonneg _ _ _ _ Hbg _ Hs0 _ _ Hruns) as Hnn.
  pose proof (updateGrid_run WORKGROUP_SIZE _ _ _ Hbg w Hnn) as Hrun.
  apply main_Return in Hmain
    as (_ & _ & _ & w1 & cells & A & B & _ & _ & _ & _ & _ & _ & _ & Hset).
  do 4 eexists.
  split; [exact Hrun|]. split; [apply ticked_calls|].
  split; [reflexivity|]. split; [reflexivity|].
  unfold frame.
  rewrite (su_cellPipeline _ _ _ _ _ _ _ _ _ Hset).
  rewrite (su_simulatePipeline _ _ _ _ _ _ _ _ _ Hset).
  rewrite (su_layout _ _ _ _ _ _ _ _ _ Hset).
  assert (Hlay : forall s, bg_layout (by_parity
            {| bg_label := "Cell renderer bind group A"; bg_layout := the_bindGroupLayout;
               bg_entries := [ {| binding := 0; resource := uniformBuffer e |};
                               {| binding := 1; resource := A0 |};
                               {| binding := 2; resource := B0 |} ] |}
            {| bg_label := "Cell renderer bind group B"; bg_layout := the_bindGroupLayout;
               bg_entries := [ {| binding := 0; resource := uniformBuffer e |};
                               {| binding := 1; resource := B0 |};
                               {| binding := 2; resource := A0 |} ] |} s)
          = the_bindGroupLayout).
  { intros s. unfold by_parity. now destruct (Z.even s). }
  split; [|repeat split; apply Hlay].
  cbn [forallb pass_commands bindings_match pipeline_layouts
       rp_layout cp_layout pl_bindGroupLayouts Z.leb Z.compare andb].
  rewrite !Hlay.
  rewrite !bool_decide_eq_true_2 by reflexivity. reflexivity.
Qed.

Lemma bind_groups_match_the_pipelines_witness :
  exists e w0 cb w',
    main "" "" (page demo_browser demo_canvas) = (Return e, w0) /\
    updateGrid 8 e w0 = (Return tt, w') /\
    calls w' = (calls w0 ++ [createCommandEncoder; getCurrentTexture; submit cb])%list /\
    forallb (fun p => bindings_match None (pass_commands p)) cb = true.
Proof.
  demo_start ltac:(fun e w0 Hmain =>
    destruct (bind_groups_match_the_pipelines _ _ 8%positive _ _ _ _ _ _
                Hmain (runs_start 8 e w0))
      as (cb & cg & rg & w' & Hrun & Hcalls & _ & _ & Hm & _);
    exists e, w0, cb, w'; auto).
Defined.
